(** * phibers: dyad features of protein sequences

    A shallow embedding of [bin/phibers.py].  Python [str] values are
    [string]s, Python [int]s are [Z], and the insertion-ordered [dict]s the
    script builds are association lists that are updated in place. *)

From Stdlib Require Import List String Ascii ZArith Lia Bool Arith DecimalString.
Import ListNotations.

Local Open Scope string_scope.
Local Open Scope list_scope.

(** ** Python strings *)

Module PyStr.

(** [s[n:]] *)
Fixpoint drop (n : nat) (s : string) : string :=
  match n, s with
  | O, _ => s
  | S _, EmptyString => EmptyString
  | S k, String _ s' => drop k s'
  end.

(** [s.startswith(sub)] *)
Definition startswith (s sub : string) : bool := String.prefix sub s.

(** The counting loop of [str.count] for a non-empty pattern: the text is
    walked from the left; a match at the current index is counted and the
    index then jumps over the whole match ([skip] characters are still to
    be passed without looking at them). *)
Fixpoint count_loop (sub : string) (skip : nat) (s : string) : nat :=
  match s with
  | EmptyString => O
  | String _ s' =>
      match skip with
      | S k => count_loop sub k s'
      | O =>
          if startswith s sub
          then S (count_loop sub (String.length sub - 1) s')
          else count_loop sub O s'
      end
  end.

(** [s.count(sub)]; the empty pattern is found between any two characters
    and at both ends. *)
Definition count (s sub : string) : Z :=
  match sub with
  | EmptyString => Z.of_nat (String.length s) + 1
  | _ => Z.of_nat (count_loop sub O s)
  end.

(** [s.find(sub, start)], with [i] the index at which [s] begins in the
    whole text; [None] stands for Python's [-1]. *)
Fixpoint find_at (sub s : string) (i : nat) : option nat :=
  if startswith s sub then Some i
  else match s with
       | EmptyString => None
       | String _ s' => find_at sub s' (S i)
       end.

Definition find (s sub : string) (start : nat) : option nat :=
  if Nat.leb start (String.length s) then find_at sub (drop start s) start
  else None.

(** [str(n)] for a non-negative integer. *)
Definition of_nat (n : nat) : string := NilZero.string_of_uint (Nat.to_uint n).

End PyStr.

(** ** Insertion-ordered dictionaries *)

Module PyDict.
Section Dict.
Context {V : Type}.

Definition t := list (string * V).

Definition empty : t := [].

(** [d[k] = v]: an existing key keeps its place and gets the new value, a
    new key goes last. *)
Fixpoint set (d : t) (k : string) (v : V) : t :=
  match d with
  | [] => [(k, v)]
  | (k', v') :: d' =>
      if String.eqb k' k then (k', v) :: d' else (k', v') :: set d' k v
  end.

(** [d.get(k)] *)
Fixpoint get (d : t) (k : string) : option V :=
  match d with
  | [] => None
  | (k', v') :: d' => if String.eqb k' k then Some v' else get d' k
  end.

(** [d.get(k, dflt)] *)
Definition get_default (d : t) (k : string) (dflt : V) : V :=
  match get d k with Some v => v | None => dflt end.

(** [list(d.keys())] *)
Definition keys (d : t) : list string := map fst d.
End Dict.
Arguments t : clear implicits.
End PyDict.

(** ** The feature space *)

Definition LETTERS : list string :=
  ["A"; "C"; "D"; "E"; "F"; "G"; "H"; "I"; "K"; "L";
   "M"; "N"; "P"; "Q"; "R"; "S"; "T"; "V"; "W"; "Y"].

(** [''.join(tupl)] for a pair. *)
Definition join2 (tupl : string * string) : string := fst tupl ++ snd tupl.

(** [string_two_mers()]: the list comprehension over pairs of letters, then
    the join of every pair. *)
Definition string_two_mers (_ : unit) : list string :=
  let tuples :=
    flat_map (fun letter1 => map (fun letter2 => (letter1, letter2)) LETTERS)
             LETTERS in
  map join2 tuples.

(** ** Counting dyads *)

(** [count_two_mers(sequence, two_mers)] *)
Definition count_two_mers (sequence : string) (two_mers : list string)
  : PyDict.t Z :=
  fold_left (fun dictionary mer =>
               PyDict.set dictionary mer (PyStr.count sequence mer))
            two_mers PyDict.empty.

(** ** Sequence records *)

(** A [SeqRecord] as far as the script reads it: [fasta.id] and
    [fasta.seq], a [Seq] whose [count] is the [count] of [str]. *)
Record fasta := { id : string; seq : string }.

(** ** The part of pandas the script calls

    A frame keeps its column labels, its row labels and its cells row by
    row; a missing cell ([NaN]) is [None].  Frames are built from dicts the
    way pandas builds them from insertion-ordered dicts: labels keep the
    order in which they are first met. *)

Module Pandas.

Record DataFrame := {
  columns : list string;
  index : list string;
  data : list (list (option Z))
}.

(** Order-preserving union of label lists: every label once, at the place
    of its first occurrence. *)
Definition add_label (seen : list string) (x : string) : list string :=
  if existsb (String.eqb x) seen then seen else seen ++ [x].

Definition union_indexes (indexes : list (list string)) : list string :=
  fold_left (fun seen ix => fold_left add_label ix seen) indexes [].

(** [_from_nested_dict]: rows of labelled cells are turned into columns of
    labelled cells, [new_data[col][index] = v], columns in the order in
    which they are first met. *)
Definition from_nested_dict (data : PyDict.t (PyDict.t Z))
  : PyDict.t (PyDict.t Z) :=
  fold_left
    (fun new_data row =>
       let '(index, s) := row in
       fold_left
         (fun nd cell =>
            let '(col, v) := cell in
            PyDict.set nd col
              (PyDict.set (PyDict.get_default nd col PyDict.empty) index v))
         s new_data)
    data PyDict.empty.

(** [DataFrame(data)] for a dict of columns, each a dict from row label to
    value. *)
Definition of_columns (data : PyDict.t (PyDict.t Z)) : DataFrame :=
  let idx := union_indexes (map (fun c => PyDict.keys (snd c)) data) in
  {| columns := PyDict.keys data;
     index := idx;
     data := map (fun i => map (fun c => PyDict.get (snd c) i) data) idx |}.

(** [DataFrame(data, index=idx)] for a dict of columns: the rows are those
    of [idx], in its order; a column that has no value for a row has a
    missing cell there. *)
Definition of_columns_at (idx : list string) (data : PyDict.t (PyDict.t Z))
  : DataFrame :=
  {| columns := PyDict.keys data;
     index := idx;
     data := map (fun i => map (fun c => PyDict.get (snd c) i) data) idx |}.

(** [DataFrame.from_dict(data, orient='index')] for a dict of dicts: the keys
    of the dict are the row labels, in their order, also when the inner
    dicts are empty and there is no column. *)
Definition from_dict_index (data : PyDict.t (PyDict.t Z)) : DataFrame :=
  match data with
  | [] => of_columns PyDict.empty
  | _ :: _ => of_columns_at (PyDict.keys data) (from_nested_dict data)
  end.

(** The rows of a frame: row label, then the cells under their column
    labels, left to right. *)
Definition rows (df : DataFrame) : list (string * list (string * option Z)) :=
  combine (index df) (map (combine (columns df)) (data df)).

(** [df.shape] *)
Definition shape (df : DataFrame) : nat * nat :=
  (List.length (index df), List.length (columns df)).

(** [df.head(n)] *)
Definition head (n : nat) (df : DataFrame) : DataFrame :=
  {| columns := columns df;
     index := firstn n (index df);
     data := firstn n (data df) |}.

Fixpoint set_cell (cols : list string) (row : list (option Z))
         (col : string) (v : Z) : list (option Z) :=
  match cols, row with
  | [], _ => row ++ [Some v]
  | _ :: _, [] => [Some v]
  | c :: cols', x :: row' =>
      if String.eqb c col then Some v :: row'
      else x :: set_cell cols' row' col v
  end.

(** [df[col] = values] for an array of values: [None] is the [ValueError]
    raised when the array is not as long as the index. *)
Definition setitem (df : DataFrame) (col : string) (vals : list Z)
  : option DataFrame :=
  if Nat.eqb (List.length vals) (List.length (index df)) then
    Some {| columns := if existsb (String.eqb col) (columns df)
                       then columns df else columns df ++ [col];
            index := index df;
            data := map (fun rv => set_cell (columns df) (fst rv) col (snd rv))
                        (combine (data df) vals) |}
  else None.

Fixpoint cell_of (cols : list string) (row : list (option Z)) (col : string)
  : option Z :=
  match cols, row with
  | c :: cols', x :: row' =>
      if String.eqb c col then x else cell_of cols' row' col
  | _, _ => None
  end.

(** [pd.DataFrame(df[col])]: the frame of the single column [col]; [None]
    is the [KeyError] for a label that is no column. *)
Definition single_column (df : DataFrame) (col : string) : option DataFrame :=
  if existsb (String.eqb col) (columns df) then
    Some {| columns := [col];
            index := index df;
            data := map (fun row => [cell_of (columns df) row col]) (data df) |}
  else None.

(** What [to_csv] writes: the separator, the header line and the lines of
    the rows, each as its fields. *)
Record Csv := {
  sep : string;
  header : list string;
  lines : list (list string)
}.

Definition str_of_Z (z : Z) : string := NilZero.string_of_int (Z.to_int z).

Definition str_of_cell (c : option Z) : string :=
  match c with Some z => str_of_Z z | None => "" end.

(** [df.to_csv(path, index=True, index_label=label)] with the default
    separator. *)
Definition to_csv (df : DataFrame) (index_label : string) : Csv :=
  {| sep := ",";
     header := index_label :: columns df;
     lines := map (fun r => fst r :: map str_of_cell (snd r))
                  (combine (index df) (data df)) |}.

End Pandas.

Import Pandas.

(** The dictionary [construct_dataframe] fills: record identifier to the
    record's counts. *)
Definition count_dictionary (two_mers : list string) (fastas : list fasta)
  : PyDict.t (PyDict.t Z) :=
  fold_left (fun dictionary fasta =>
               let two_mers_count := count_two_mers (seq fasta) two_mers in
               PyDict.set dictionary (id fasta) two_mers_count)
            fastas PyDict.empty.

(** The frame [construct_dataframe] returns. *)
Definition feature_matrix (two_mers : list string) (fastas : list fasta)
  : DataFrame :=
  from_dict_index (count_dictionary two_mers fastas).

(** ** Effects

    A run leaves a trace of what it did to the outside, oldest event first,
    and ends with a value or with an exception that nobody caught. *)

Inductive exn := Exception (kind : string) (msg : string).

Inductive event :=
| Print (msg : string)
| Load (path : string)
| Predict (df : DataFrame)
| ToCsv (path : string) (table : Csv).

Inductive res (A : Type) :=
| Ok (a : A)
| Raise (e : exn).
Arguments Ok {A} a.
Arguments Raise {A} e.

Definition M (A : Type) : Type := res A * list event.

Definition ret {A} (a : A) : M A := (Ok a, []).

Definition raise {A} (e : exn) : M A := (Raise e, []).

Definition bind {A B} (m : M A) (f : A -> M B) : M B :=
  match m with
  | (Ok a, t) => let (r, t') := f a in (r, t ++ t')
  | (Raise e, t) => (Raise e, t)
  end.

Definition emit (e : event) : M unit := (Ok tt, [e]).

(** [print(msg)] *)
Definition print (msg : string) : M unit := emit (Print msg).

(** [try: body except: handler], the bare [except] that catches anything. *)
Definition try_except {A} (body : M A) (handler : M A) : M A :=
  match body with
  | (Ok a, t) => (Ok a, t)
  | (Raise _, t) => let (r, t') := handler in (r, t ++ t')
  end.

(** A result computed outside the script. *)
Definition lift {A} (r : res A) : M A := (r, []).

Declare Scope py_scope.
Delimit Scope py_scope with py.
Notation "x <- m ;; k" := (bind m (fun x => k))
  (at level 61, m at next level, right associativity) : py_scope.
Notation "m ;; k" := (bind m (fun _ => k))
  (at level 61, right associativity) : py_scope.
Local Open Scope py_scope.

(** The files a run has written, oldest first. *)
Definition files_written (t : list event) : list (string * Csv) :=
  flat_map (fun e => match e with ToCsv p c => [(p, c)] | _ => [] end) t.

(** Whether a run got as far as the classifier. *)
Definition is_classifier_call (e : event) : bool :=
  match e with Load _ | Predict _ => true | _ => false end.

(** ** What the script is given from outside *)

(** The pretrained model stored in [sr_a.joblib]: one label per row, or an
    exception. *)
Record Model := { predict : DataFrame -> res (list Z) }.

Record Collaborators := {
  (** [os.path.isfile] *)
  isfile : string -> bool;
  (** [os.listdir]: the entries of a directory, or the [OSError] *)
  listdir : string -> res (list string);
  (** [SeqIO.parse(file, 'fasta')]: the records the iterator yields and the
      exception that ends the iteration, if any *)
  SeqIO_parse : string -> list fasta * option exn;
  (** [os.path.dirname(os.path.abspath(__file__))] *)
  script_dir : string;
  (** [joblib.load] *)
  joblib_load : string -> res Model;
  (** the exception [to_csv] meets when it cannot write to a path *)
  write_error : string -> option exn;
  (** how pandas and numpy print a frame and an array *)
  repr_frame : DataFrame -> string;
  repr_array : list Z -> string
}.

(** [os.path.join(a, b)] on POSIX. *)
Definition path_join (a b : string) : string :=
  if String.prefix "/" b then b
  else if orb (String.eqb a "") (String.eqb (PyStr.drop (String.length a - 1) a) "/")
       then a ++ b
       else a ++ "/" ++ b.

(** [np.count_nonzero(prediction)] *)
Definition count_nonzero (prediction : list Z) : nat :=
  List.length (filter (fun z => negb (Z.eqb z 0)) prediction).

Section Pipeline.
Variable env : Collaborators.

(** [read_fastas_from_file(file)] *)
Definition read_fastas_from_file (file : string) : M (list fasta) :=
  try_except
    (fastas <- (let (records, failure) := SeqIO_parse env file in
                match failure with
                | None => ret records
                | Some e => raise e
                end) ;;
     print ("Number of sequences in '" ++ file ++ "': "
            ++ PyStr.of_nat (List.length fastas)) ;;
     ret fastas)
    (print ("Failed to load file '" ++ file ++ "'.") ;;
     ret []).

(** The loop of [read_fastas_from_directory] over the entries of the
    directory, [fastas] being what has been read so far. *)
Fixpoint read_entries (directory : string) (filenames : list string)
         (fastas : list fasta) : M (list fasta) :=
  match filenames with
  | [] => ret fastas
  | filename :: rest =>
      more <- read_fastas_from_file (path_join directory filename) ;;
      read_entries directory rest (fastas ++ more)
  end.

(** [read_fastas_from_directory(directory)] *)
Definition read_fastas_from_directory (directory : string) : M (list fasta) :=
  print ("Reading from directory '" ++ directory ++ "'.") ;;
  filenames <- lift (listdir env directory) ;;
  read_entries directory filenames [].

(** [get_fastas(source)] *)
Definition get_fastas (source : string) : M (list fasta) :=
  if isfile env source then read_fastas_from_file source
  else read_fastas_from_directory source.

(** [construct_dataframe(two_mers, fastas)] *)
Definition construct_dataframe (two_mers : list string) (fastas : list fasta)
  : M DataFrame :=
  print "Constructing 2mer dataframe:" ;;
  let df := feature_matrix two_mers fastas in
  print "Dataframe constructed!" ;;
  ret df.

(** [make_prediction(df)] *)
Definition make_prediction (df : DataFrame) : M (list Z) :=
  print "Predicting..." ;;
  let model_source := (script_dir env ++ "/sr_a.joblib")%string in
  emit (Load model_source) ;;
  model <- lift (joblib_load env model_source) ;;
  emit (Predict df) ;;
  prediction <- lift (predict model df) ;;
  print "Finished prediction!" ;;
  ret prediction.

(** [setitem], [single_column] and [to_csv] inside a run. *)
Definition or_raise {A} (kind : string) (o : option A) : M A :=
  match o with
  | Some a => ret a
  | None => raise (Exception kind "")
  end.

Definition write_csv (df : DataFrame) (output index_label : string) : M unit :=
  match write_error env output with
  | Some e => raise e
  | None => emit (ToCsv output (to_csv df index_label))
  end.

(** [start(source, output)] *)
Definition start (source output : string) : M unit :=
  fastas <- get_fastas source ;;
  if Nat.eqb (List.length fastas) 0 then
    print "No fasta records found."
  else
    print ("Found " ++ PyStr.of_nat (List.length fastas) ++ " fasta records.") ;;
    let two_mers := string_two_mers tt in
    two_mer_df <- construct_dataframe two_mers fastas ;;
    print ("DF shape: (" ++ PyStr.of_nat (fst (shape two_mer_df)) ++ ", "
           ++ PyStr.of_nat (snd (shape two_mer_df)) ++ ")") ;;
    print "Head of DF:" ;;
    print (repr_frame env (head 10 two_mer_df)) ;;
    prediction <- make_prediction two_mer_df ;;
    print (repr_array env prediction) ;;
    print ("<class 'numpy.ndarray'> " ++ PyStr.of_nat (List.length prediction)) ;;
    print ("Number of positively predicted: "
           ++ PyStr.of_nat (count_nonzero prediction)) ;;
    two_mer_df' <- or_raise "ValueError" (setitem two_mer_df "prediction" prediction) ;;
    result <- or_raise "KeyError" (single_column two_mer_df' "prediction") ;;
    write_csv result output "Protein ID" ;;
    print ("Predictions saved to " ++ output ++ ".").

End Pipeline.

(** ** The counting rule in the words of the design

    Non-overlapping, left-to-right scanning: find the next occurrence of the
    dyad at or after the scan position; on a match, move the scan position to
    the index of the match plus 2.  [scan] lists the indices of the matches;
    [fuel] bounds the number of searches. *)

Module ScanSpec.

Fixpoint scan (fuel : nat) (dyad sequence : string) (pos : nat) : list nat :=
  match fuel with
  | O => []
  | S fuel' =>
      match PyStr.find sequence dyad pos with
      | None => []
      | Some i => i :: scan fuel' dyad sequence (i + 2)
      end
  end.

(** One search per character and a last one that fails are enough. *)
Definition match_positions (dyad sequence : string) : list nat :=
  scan (S (String.length sequence)) dyad sequence 0.

Definition nonoverlapping_count (dyad sequence : string) : Z :=
  Z.of_nat (List.length (match_positions dyad sequence)).

(** All occurrences, overlapping ones too: the reading of "count" that the
    design rules out. *)
Fixpoint overlapping_count (dyad sequence : string) : Z :=
  match sequence with
  | EmptyString => 0
  | String _ s' =>
      (if PyStr.startswith sequence dyad then 1 else 0)
      + overlapping_count dyad s'
  end%Z.

End ScanSpec.

(** ** Record identifiers of a run *)

(** Every identifier once, where it is first met. *)
Definition first_occurrences (ids : list string) : list string :=
  fold_left add_label ids [].

(** The last record that carries a given identifier. *)
Fixpoint last_with_id (fastas : list fasta) (i : string) : option fasta :=
  match fastas with
  | [] => None
  | f :: rest =>
      match last_with_id rest i with
      | Some g => Some g
      | None => if String.eqb (id f) i then Some f else None
      end
  end.

(** Its sequence. *)
Definition seq_of_last (fastas : list fasta) (i : string) : string :=
  match last_with_id fastas i with
  | Some f => seq f
  | None => ""
  end.

(** The row of counts of a sequence, in the order of [two_mers]. *)
Definition feature_vector (two_mers : list string) (sequence : string)
  : list (string * option Z) :=
  map (fun mer => (mer, Some (PyStr.count sequence mer))) two_mers.

(** ** Shapes of traces and tables *)

(** A run that has only printed so far. *)
Definition is_print (e : event) : bool :=
  match e with Print _ => true | _ => false end.

Definition only_prints (t : list event) : Prop := forallb is_print t = true.

(** The table of identifiers and labels: the index column under
    [index_label], the labels under [col]. *)
Definition label_table (index_label col : string) (ids : list string)
           (prediction : list Z) : Csv :=
  {| sep := ",";
     header := [index_label; col];
     lines := map (fun il => [fst il; str_of_Z (snd il)]) (combine ids prediction) |}.

(** The path of the stored model. *)
Definition model_source (env : Collaborators) : string :=
  script_dir env ++ "/sr_a.joblib".

(** What a run with records leaves in the trace from the count of the
    records up to the loading of the model. *)
Definition trace_to_load (env : Collaborators) (fastas : list fasta) : list event :=
  let df := feature_matrix (string_two_mers tt) fastas in
  [Print ("Found " ++ PyStr.of_nat (List.length fastas) ++ " fasta records.");
   Print "Constructing 2mer dataframe:";
   Print "Dataframe constructed!";
   Print ("DF shape: (" ++ PyStr.of_nat (fst (shape df)) ++ ", "
          ++ PyStr.of_nat (snd (shape df)) ++ ")");
   Print "Head of DF:";
   Print (repr_frame env (head 10 df));
   Print "Predicting...";
   Load (model_source env)].

(** What it leaves from the call of the model up to the report of the
    labels. *)
Definition trace_of_prediction (env : Collaborators) (df : DataFrame)
           (prediction : list Z) : list event :=
  [Predict df;
   Print "Finished prediction!";
   Print (repr_array env prediction);
   Print ("<class 'numpy.ndarray'> " ++ PyStr.of_nat (List.length prediction));
   Print ("Number of positively predicted: "
          ++ PyStr.of_nat (count_nonzero prediction))].

(** ** Example inputs *)

Module Examples.

(** The two records of the end-to-end example of the design. *)
Definition P1 : fasta := {| id := "P1"; seq := "ACACAC" |}.
Definition P2 : fasta := {| id := "P2"; seq := "GGGGGG" |}.

(** A record that carries the identifier of [P1] again. *)
Definition P1_again : fasta := {| id := "P1"; seq := "GGGGGG" |}.

(** A model that labels every row 1. *)
Definition all_ones : Model :=
  {| predict := fun df => Ok (map (fun _ => 1%Z) (index df)) |}.

(** A single file with the two records, the model in place. *)
Definition two_records : Collaborators :=
  {| isfile := fun _ => true;
     listdir := fun _ => Raise (Exception "NotADirectoryError" "");
     SeqIO_parse := fun _ => ([P1; P2], None);
     script_dir := "/opt/phibers/bin";
     joblib_load := fun _ => Ok all_ones;
     write_error := fun _ => None;
     repr_frame := fun _ => "";
     repr_array := fun _ => "" |}.

(** The same file, the model missing. *)
Definition no_model : Collaborators :=
  {| isfile := fun _ => true;
     listdir := fun _ => Raise (Exception "NotADirectoryError" "");
     SeqIO_parse := fun _ => ([P1; P2], None);
     script_dir := "/opt/phibers/bin";
     joblib_load := fun path => Raise (Exception "FileNotFoundError" path);
     write_error := fun _ => None;
     repr_frame := fun _ => "";
     repr_array := fun _ => "" |}.

(** An empty directory. *)
Definition empty_directory : Collaborators :=
  {| isfile := fun _ => false;
     listdir := fun _ => Ok [];
     SeqIO_parse := fun _ => ([], None);
     script_dir := "/opt/phibers/bin";
     joblib_load := fun _ => Ok all_ones;
     write_error := fun _ => None;
     repr_frame := fun _ => "";
     repr_array := fun _ => "" |}.

(** A directory of three entries, the second of which the parser gives up
    on after one record. *)
Definition broken_entry : Collaborators :=
  {| isfile := fun _ => false;
     listdir := fun _ => Ok ["a.fa"; "bad.fa"; "b.fa"];
     SeqIO_parse := fun file =>
       if String.eqb file "seqs/a.fa" then ([P1], None)
       else if String.eqb file "seqs/bad.fa"
            then ([P1_again], Some (Exception "ValueError" "bad.fa"))
            else ([P2], None);
     script_dir := "/opt/phibers/bin";
     joblib_load := fun _ => Ok all_ones;
     write_error := fun _ => None;
     repr_frame := fun _ => "";
     repr_array := fun _ => "" |}.

End Examples.

(** ** Notions for the further facts *)

(** [sub in s]: the pattern occurs somewhere in the text. *)
Definition occurs_in (sub s : string) : Prop :=
  exists pre post : string, s = (pre ++ sub ++ post)%string.

(** The records that one file adds to what a directory yields. *)
Definition records_of (env : Collaborators) (file : string) : list fasta :=
  match SeqIO_parse env file with
  | (records, None) => records
  | (_, Some _) => []
  end.

(** Every entry is alphabetically before all entries behind it ([<] on
    [str]). *)
Fixpoint increasing (l : list string) : bool :=
  match l with
  | [] => true
  | x :: rest => forallb (String.ltb x) rest && increasing rest
  end.

(** [sum(dictionary.values())] *)
Definition total (counts : PyDict.t Z) : Z :=
  fold_right Z.add 0%Z (map snd counts).

(** 1 when the text begins with the pattern, else 0. *)
Definition starts (t k : string) : Z :=
  if PyStr.startswith t k then 1%Z else 0%Z.

(** How often an event of a kind is in a trace. *)
Definition count_events (p : event -> bool) (t : list event) : nat :=
  List.length (filter p t).

Definition is_load (e : event) : bool :=
  match e with Load _ => true | _ => false end.

Definition is_predict (e : event) : bool :=
  match e with Predict _ => true | _ => false end.

Definition is_write (e : event) : bool :=
  match e with ToCsv _ _ => true | _ => false end.

Module MoreExamples.

(** A source that is no file and cannot be listed. *)
Definition missing_source : Collaborators :=
  {| isfile := fun _ => false;
     listdir := fun path => Raise (Exception "FileNotFoundError" path);
     SeqIO_parse := fun _ => ([], None);
     script_dir := "/opt/phibers/bin";
     joblib_load := fun _ => Ok Examples.all_ones;
     write_error := fun _ => None;
     repr_frame := fun _ => "";
     repr_array := fun _ => "" |}.

(** A model that gives a single label whatever the frame. *)
Definition one_label : Model := {| predict := fun _ => Ok [1%Z] |}.

(** The file with the two records, scored by [one_label]. *)
Definition short_of_labels : Collaborators :=
  {| isfile := fun _ => true;
     listdir := fun _ => Raise (Exception "NotADirectoryError" "");
     SeqIO_parse := fun _ => ([Examples.P1; Examples.P2], None);
     script_dir := "/opt/phibers/bin";
     joblib_load := fun _ => Ok one_label;
     write_error := fun _ => None;
     repr_frame := fun _ => "";
     repr_array := fun _ => "" |}.

(** The file with the two records, the output path not writable. *)
Definition read_only_output : Collaborators :=
  {| isfile := fun _ => true;
     listdir := fun _ => Raise (Exception "NotADirectoryError" "");
     SeqIO_parse := fun _ => ([Examples.P1; Examples.P2], None);
     script_dir := "/opt/phibers/bin";
     joblib_load := fun _ => Ok Examples.all_ones;
     write_error := fun path => Some (Exception "PermissionError" path);
     repr_frame := fun _ => "";
     repr_array := fun _ => "" |}.

(** The third record carries the identifier of the first again. *)
Definition P1_third : fasta := {| id := "P1"; seq := "GGGG" |}.

(** A file with three records of which two share an identifier, the model
    in place. *)
Definition repeated_identifier : Collaborators :=
  {| isfile := fun _ => true;
     listdir := fun _ => Raise (Exception "NotADirectoryError" "");
     SeqIO_parse := fun _ => ([Examples.P1; Examples.P2; P1_third], None);
     script_dir := "/opt/phibers/bin";
     joblib_load := fun _ => Ok Examples.all_ones;
     write_error := fun _ => None;
     repr_frame := fun _ => "";
     repr_array := fun _ => "" |}.

End MoreExamples.

(** ** How far a run has come

    Nothing done yet, the model loaded, the model called, the file written;
    an event moves a run on by one step or, when it prints, by none, and no
    other event may follow. *)

Inductive stage := Started | Loaded | Called | Saved.

Definition advance (s : stage) (e : event) : option stage :=
  match e, s with
  | Print _, _ => Some s
  | Load _, Started => Some Loaded
  | Predict _, Loaded => Some Called
  | ToCsv _ _, Called => Some Saved
  | _, _ => None
  end.

Fixpoint stages (s : stage) (t : list event) : option stage :=
  match t with
  | [] => Some s
  | e :: t' =>
      match advance s e with
      | Some s' => stages s' t'
      | None => None
      end
  end.

(** How many loads, calls and writes lie behind a stage. *)
Definition done_at (s : stage) : nat * nat * nat :=
  match s with
  | Started => (0, 0, 0)
  | Loaded => (1, 0, 0)
  | Called => (1, 1, 0)
  | Saved => (1, 1, 1)
  end.

(** The ways a run can go, each with its outcome and its trace. *)
Inductive run_shape (env : Collaborators) (source output : string)
  : res unit -> list event -> Prop :=
| NoSource e t0 :
    get_fastas env source = (Raise e, t0) ->
    run_shape env source output (Raise e) t0
| NoRecords t0 :
    get_fastas env source = (Ok [], t0) ->
    run_shape env source output (Ok tt) (t0 ++ [Print "No fasta records found."])
| NoModel fastas t0 e :
    get_fastas env source = (Ok fastas, t0) -> fastas <> [] ->
    joblib_load env (model_source env) = Raise e ->
    run_shape env source output (Raise e) (t0 ++ trace_to_load env fastas)
| NoLabels fastas t0 model e :
    get_fastas env source = (Ok fastas, t0) -> fastas <> [] ->
    joblib_load env (model_source env) = Ok model ->
    predict model (feature_matrix (string_two_mers tt) fastas) = Raise e ->
    run_shape env source output (Raise e)
      (t0 ++ trace_to_load env fastas
          ++ [Predict (feature_matrix (string_two_mers tt) fastas)])
| Misaligned fastas t0 model prediction :
    get_fastas env source = (Ok fastas, t0) -> fastas <> [] ->
    joblib_load env (model_source env) = Ok model ->
    predict model (feature_matrix (string_two_mers tt) fastas) = Ok prediction ->
    List.length prediction
    <> List.length (index (feature_matrix (string_two_mers tt) fastas)) ->
    run_shape env source output (Raise (Exception "ValueError" ""))
      (t0 ++ trace_to_load env fastas
          ++ trace_of_prediction env (feature_matrix (string_two_mers tt) fastas)
                                 prediction)
| Unwritable fastas t0 model prediction e :
    get_fastas env source = (Ok fastas, t0) -> fastas <> [] ->
    joblib_load env (model_source env) = Ok model ->
    predict model (feature_matrix (string_two_mers tt) fastas) = Ok prediction ->
    List.length prediction
    = List.length (index (feature_matrix (string_two_mers tt) fastas)) ->
    write_error env output = Some e ->
    run_shape env source output (Raise e)
      (t0 ++ trace_to_load env fastas
          ++ trace_of_prediction env (feature_matrix (string_two_mers tt) fastas)
                                 prediction)
| Written fastas t0 model prediction :
    get_fastas env source = (Ok fastas, t0) -> fastas <> [] ->
    joblib_load env (model_source env) = Ok model ->
    predict model (feature_matrix (string_two_mers tt) fastas) = Ok prediction ->
    List.length prediction
    = List.length (index (feature_matrix (string_two_mers tt) fastas)) ->
    write_error env output = None ->
    run_shape env source output (Ok tt)
      (t0 ++ trace_to_load env fastas
          ++ trace_of_prediction env (feature_matrix (string_two_mers tt) fastas)
                                 prediction
          ++ [ToCsv output
                (label_table "Protein ID" "prediction"
                   (first_occurrences (map id fastas)) prediction);
              Print ("Predictions saved to " ++ output ++ ".")]).

(** * Facts *)

(** ** Strings *)

Module PyStrFacts.
Import PyStr.

Lemma startswith_length (s sub : string) :
  startswith s sub = true -> String.length sub <= String.length s.
Proof.
  unfold startswith. revert sub.
  induction s as [|c s IH]; intros [|a sub]; simpl; intros H;
    try lia; try discriminate.
  destruct (ascii_dec a c); [|discriminate].
  apply IH in H. lia.
Qed.

Lemma drop_0 (s : string) : drop 0 s = s.
Proof. destruct s; reflexivity. Qed.

Lemma drop_empty (n : nat) : drop n EmptyString = EmptyString.
Proof. destruct n; reflexivity. Qed.

Lemma drop_drop (n m : nat) (s : string) : drop n (drop m s) = drop (m + n) s.
Proof.
  revert s. induction m as [|m IH]; intros s; simpl.
  - reflexivity.
  - destruct s; [apply drop_empty | apply IH].
Qed.

Lemma drop_length (n : nat) (s : string) :
  String.length (drop n s) = String.length s - n.
Proof.
  revert s. induction n as [|n IH]; intros [|c s]; simpl; auto with arith.
Qed.

(** Skipping characters in the loop is dropping them from the text. *)
Lemma count_loop_skip (sub : string) (k : nat) (s : string) :
  count_loop sub k s = count_loop sub 0 (drop k s).
Proof.
  revert k. induction s as [|c s IH]; intros [|k]; simpl; auto.
Qed.

(** Counted matches do not overlap: together they fit in the text. *)
Lemma count_loop_fits (sub : string) (s : string) (k : nat) :
  sub <> EmptyString ->
  count_loop sub k s * String.length sub <= String.length s - k.
Proof.
  intros Hsub.
  assert (1 <= String.length sub) as Hm
      by (destruct sub; [congruence | simpl; lia]).
  revert k.
  induction s as [|c s IH]; intros k; cbn [count_loop String.length]; [lia|].
  destruct k as [|k].
  - destruct (startswith (String c s) sub) eqn:E.
    + apply startswith_length in E. cbn [String.length] in E.
      specialize (IH (String.length sub - 1)).
      rewrite Nat.mul_succ_l. lia.
    + specialize (IH 0). lia.
  - apply IH.
Qed.

(** The search either fails, and then nothing is counted, or finds the
    first match, which is counted, and the count goes on behind it. *)
Lemma find_at_count_loop (sub : string) (s : string) (i : nat) :
  sub <> EmptyString ->
  match find_at sub s i with
  | None => count_loop sub 0 s = 0
  | Some j =>
      i <= j /\ j - i + String.length sub <= String.length s /\
      count_loop sub 0 s
      = S (count_loop sub 0 (drop (j - i + String.length sub) s))
  end.
Proof.
  intros Hsub. revert i.
  induction s as [|c s IH]; intros i.
  - destruct sub as [|a sub]; [congruence|]. reflexivity.
  - cbn [find_at count_loop].
    destruct (startswith (String c s) sub) eqn:E.
    + pose proof (startswith_length _ _ E) as L. simpl in L.
      split; [lia|]. split; [simpl; lia|].
      rewrite count_loop_skip. f_equal. f_equal.
      replace (i - i + String.length sub) with (S (String.length sub - 1)).
      * reflexivity.
      * destruct sub; [congruence|simpl; lia].
    + specialize (IH (S i)).
      destruct (find_at sub s (S i)) as [j|]; [|exact IH].
      destruct IH as (Hij & Hfit & Hc).
      split; [lia|]. split; [simpl; lia|].
      rewrite Hc. f_equal. f_equal.
      replace (j - i + String.length sub) with (S (j - S i + String.length sub)) by lia.
      reflexivity.
Qed.

(** The scan of the design and the loop of [str.count] agree from every
    scan position, as soon as the fuel covers the rest of the text. *)
Lemma scan_count_loop (dyad sequence : string) :
  String.length dyad = 2 ->
  forall fuel pos,
    pos <= String.length sequence ->
    String.length sequence - pos < fuel ->
    List.length (ScanSpec.scan fuel dyad sequence pos)
    = count_loop dyad 0 (drop pos sequence).
Proof.
  intros Hd.
  assert (Hne : dyad <> EmptyString) by (destruct dyad; [discriminate|congruence]).
  induction fuel as [|fuel IH]; intros pos Hpos Hfuel; [lia|].
  cbn [ScanSpec.scan]. unfold find.
  destruct (Nat.leb_spec pos (String.length sequence)) as [_|Hgt]; [|lia].
  pose proof (find_at_count_loop dyad (drop pos sequence) pos Hne) as F.
  destruct (find_at dyad (drop pos sequence) pos) as [j|].
  - destruct F as (Hij & Hfit & Hc).
    rewrite drop_length, Hd in Hfit.
    rewrite Hc, drop_drop, Hd. simpl. f_equal.
    replace (pos + (j - pos + 2)) with (j + 2) by lia.
    apply IH; lia.
  - now rewrite F.
Qed.

End PyStrFacts.

(** ** Labels and dictionaries *)

Lemma existsb_eqb_In (x : string) (l : list string) :
  existsb (String.eqb x) l = true <-> In x l.
Proof.
  rewrite existsb_exists. split.
  - intros (y & Hy & E). apply String.eqb_eq in E. now subst.
  - intros H. exists x. split; [assumption | apply String.eqb_refl].
Qed.

Lemma existsb_eqb_not_In (x : string) (l : list string) :
  existsb (String.eqb x) l = false <-> ~ In x l.
Proof.
  rewrite <- existsb_eqb_In. destruct (existsb (String.eqb x) l); split; congruence.
Qed.

Lemma add_label_In (seen : list string) (x : string) :
  In x seen -> add_label seen x = seen.
Proof. intros H. unfold add_label. apply existsb_eqb_In in H. now rewrite H. Qed.

Lemma add_label_fresh (seen : list string) (x : string) :
  ~ In x seen -> add_label seen x = seen ++ [x].
Proof. intros H. unfold add_label. apply existsb_eqb_not_In in H. now rewrite H. Qed.

Lemma add_label_cons (y : string) (seen : list string) (x : string) :
  add_label (y :: seen) x = if String.eqb y x then y :: seen else y :: add_label seen x.
Proof.
  unfold add_label. simpl. rewrite (String.eqb_sym x y).
  destruct (String.eqb y x); simpl; [reflexivity|].
  destruct (existsb (String.eqb x) seen); reflexivity.
Qed.

Section AddLabels.
Variable l : list string.

Lemma add_labels_In (seen : list string) (x : string) :
  In x (fold_left add_label l seen) <-> In x seen \/ In x l.
Proof.
  revert seen. induction l as [|y l' IH]; intros seen; simpl.
  - tauto.
  - rewrite IH. unfold add_label.
    destruct (existsb (String.eqb y) seen) eqn:E.
    + apply existsb_eqb_In in E. split; [tauto|].
      intros [H|[H|H]]; subst; auto.
    + rewrite in_app_iff. simpl. tauto.
Qed.

Lemma add_labels_NoDup (seen : list string) :
  NoDup seen -> NoDup (fold_left add_label l seen).
Proof.
  revert seen. induction l as [|y l' IH]; intros seen H; simpl; [assumption|].
  apply IH. unfold add_label.
  destruct (existsb (String.eqb y) seen) eqn:E; [assumption|].
  apply existsb_eqb_not_In in E.
  apply NoDup_app; [assumption | repeat constructor; simpl; tauto |].
  intros x Hx [Hy|[]]. now subst.
Qed.

Lemma add_labels_fresh (seen : list string) :
  NoDup (seen ++ l) -> fold_left add_label l seen = seen ++ l.
Proof.
  revert seen. induction l as [|y l' IH]; intros seen H; simpl.
  - now rewrite app_nil_r.
  - rewrite add_label_fresh.
    + rewrite IH; rewrite <- app_assoc; [reflexivity | exact H].
    + intros Hy. apply NoDup_remove_2 in H. apply H.
      apply in_or_app. now left.
Qed.

Lemma add_labels_seen (seen : list string) :
  incl l seen -> fold_left add_label l seen = seen.
Proof.
  revert seen. induction l as [|y l' IH]; intros seen H; simpl; [reflexivity|].
  rewrite add_label_In by (apply H; now left).
  apply IH. intros x Hx. apply H. now right.
Qed.
End AddLabels.

Lemma first_occurrences_NoDup (ids : list string) : NoDup (first_occurrences ids).
Proof. apply add_labels_NoDup. constructor. Qed.

Lemma first_occurrences_In (ids : list string) (x : string) :
  In x (first_occurrences ids) <-> In x ids.
Proof. unfold first_occurrences. rewrite add_labels_In. simpl. tauto. Qed.

Lemma first_occurrences_id (ids : list string) :
  NoDup ids -> first_occurrences ids = ids.
Proof. intros H. apply (add_labels_fresh ids []). exact H. Qed.

Lemma first_occurrences_nil (ids : list string) :
  first_occurrences ids = [] -> ids = [].
Proof.
  destruct ids as [|x ids]; [reflexivity|]. intros H.
  assert (In x (first_occurrences (x :: ids))) as Hx
      by (apply first_occurrences_In; now left).
  rewrite H in Hx. destruct Hx.
Qed.

Module PyDictFacts.
Import PyDict.
Section Facts.
Context {V : Type}.
Implicit Types (d : PyDict.t V) (k : string) (v : V).

Lemma get_set_eq d k v : get (set d k v) k = Some v.
Proof.
  induction d as [|[k' v'] d IH]; simpl.
  - now rewrite String.eqb_refl.
  - destruct (String.eqb k' k) eqn:E; simpl; rewrite E; auto.
Qed.

Lemma get_set_neq d k k' v : k <> k' -> get (set d k v) k' = get d k'.
Proof.
  intros N. induction d as [|[k0 v0] d IH]; simpl.
  - apply String.eqb_neq in N. now rewrite N.
  - destruct (String.eqb k0 k) eqn:E; simpl.
    + apply String.eqb_eq in E. subst k0.
      apply String.eqb_neq in N. now rewrite N.
    + now rewrite IH.
Qed.

Lemma keys_set d k v : keys (set d k v) = add_label (keys d) k.
Proof.
  induction d as [|[k' v'] d IH]; [reflexivity|].
  unfold keys in *. cbn [set map fst]. rewrite add_label_cons.
  destruct (String.eqb k' k); cbn [map fst]; [reflexivity|]. now rewrite IH.
Qed.

Lemma get_None d k : get d k = None <-> ~ In k (keys d).
Proof.
  induction d as [|[k' v'] d IH]; simpl; [tauto|].
  destruct (String.eqb k' k) eqn:E.
  - apply String.eqb_eq in E. split; [discriminate | tauto].
  - apply String.eqb_neq in E. rewrite IH. tauto.
Qed.

Lemma get_app_fresh (pre d : PyDict.t V) k :
  ~ In k (keys pre) -> get (pre ++ d) k = get d k.
Proof.
  induction pre as [|[k' v'] pre IH]; simpl; [reflexivity|].
  intros N. destruct (String.eqb k' k) eqn:E.
  - apply String.eqb_eq in E. tauto.
  - apply IH. tauto.
Qed.

(** A new key goes last. *)
Lemma set_fresh d k v : ~ In k (keys d) -> set d k v = d ++ [(k, v)].
Proof.
  induction d as [|[k' v'] d IH]; simpl; [reflexivity|].
  intros N. destruct (String.eqb k' k) eqn:E.
  - apply String.eqb_eq in E. tauto.
  - rewrite IH; tauto.
Qed.

(** A key that is there keeps its place. *)
Lemma set_in_place (pre post : PyDict.t V) k v0 v :
  ~ In k (keys pre) ->
  set (pre ++ (k, v0) :: post) k v = pre ++ (k, v) :: post.
Proof.
  induction pre as [|[k' v'] pre IH]; simpl.
  - now rewrite String.eqb_refl.
  - intros N. destruct (String.eqb k' k) eqn:E.
    + apply String.eqb_eq in E. tauto.
    + rewrite IH; tauto.
Qed.

(** A dictionary whose values are a function of the keys. *)
Lemma set_tabulate (f : string -> V) (ks : list string) k :
  set (map (fun x => (x, f x)) ks) k (f k)
  = map (fun x => (x, f x)) (add_label ks k).
Proof.
  induction ks as [|k' ks IH]; [reflexivity|].
  rewrite add_label_cons. cbn [map set].
  destruct (String.eqb k' k) eqn:E.
  - apply String.eqb_eq in E. now subst.
  - now rewrite IH.
Qed.

Lemma get_tabulate (f : string -> V) (ks : list string) k :
  get (map (fun x => (x, f x)) ks) k = if existsb (String.eqb k) ks then Some (f k) else None.
Proof.
  induction ks as [|k' ks IH]; [reflexivity|].
  cbn [map get existsb]. rewrite (String.eqb_sym k k').
  destruct (String.eqb k' k) eqn:E; simpl; [|exact IH].
  apply String.eqb_eq in E. now subst.
Qed.
End Facts.
End PyDictFacts.

(** ** The feature space and the counts of one sequence *)

Lemma string_two_mers_NoDup : NoDup (string_two_mers tt).
Proof.
  assert (first_occurrences (string_two_mers tt) = string_two_mers tt) as E
      by (vm_compute; reflexivity).
  rewrite <- E. apply first_occurrences_NoDup.
Qed.

Lemma string_two_mers_length2 (d : string) :
  In d (string_two_mers tt) -> String.length d = 2.
Proof.
  assert (forallb (fun d => Nat.eqb (String.length d) 2) (string_two_mers tt) = true) as H
      by (vm_compute; reflexivity).
  rewrite forallb_forall in H. intros Hd.
  apply Nat.eqb_eq. now apply H.
Qed.

Lemma nth_error_product {A B C : Type} (f : A -> B -> C)
      (la : list A) (lb : list B) (i j : nat) (a : A) (b : B) :
  nth_error la i = Some a -> nth_error lb j = Some b ->
  nth_error (flat_map (fun x => map (f x) lb) la) (List.length lb * i + j)
  = Some (f a b).
Proof.
  intros Ha Hb. revert i Ha.
  induction la as [|x la IH]; intros [|i] Ha; simpl in Ha; try discriminate.
  - injection Ha as ->. simpl. rewrite Nat.mul_0_r. simpl.
    rewrite nth_error_app1.
    + now apply map_nth_error.
    + rewrite length_map. apply nth_error_Some. congruence.
  - simpl flat_map. rewrite nth_error_app2; rewrite length_map; [|lia].
    replace (List.length lb * S i + j - List.length lb)
      with (List.length lb * i + j) by lia.
    now apply IH.
Qed.

Lemma count_two_mers_tabulate (sequence : string) (two_mers : list string) :
  count_two_mers sequence two_mers
  = map (fun mer => (mer, PyStr.count sequence mer)) (first_occurrences two_mers).
Proof.
  unfold count_two_mers, first_occurrences, PyDict.empty.
  change (@nil (string * Z))
    with (map (fun mer => (mer, PyStr.count sequence mer)) []).
  generalize (@nil string) as ks.
  induction two_mers as [|mer two_mers IH]; intros ks; simpl; [reflexivity|].
  rewrite (PyDictFacts.set_tabulate (PyStr.count sequence)). apply IH.
Qed.

Lemma keys_count_two_mers (sequence : string) (two_mers : list string) :
  PyDict.keys (count_two_mers sequence two_mers) = first_occurrences two_mers.
Proof.
  rewrite count_two_mers_tabulate. unfold PyDict.keys.
  rewrite map_map. simpl. apply map_id.
Qed.

Lemma get_count_two_mers (sequence : string) (two_mers : list string) (d : string) :
  In d two_mers ->
  PyDict.get (count_two_mers sequence two_mers) d = Some (PyStr.count sequence d).
Proof.
  intros H. rewrite count_two_mers_tabulate, PyDictFacts.get_tabulate.
  apply <- first_occurrences_In in H. apply existsb_eqb_In in H. now rewrite H.
Qed.

Lemma get_count_two_mers_inv (sequence : string) (two_mers : list string)
      (d : string) (c : Z) :
  PyDict.get (count_two_mers sequence two_mers) d = Some c ->
  In d two_mers /\ c = PyStr.count sequence d.
Proof.
  rewrite count_two_mers_tabulate, PyDictFacts.get_tabulate.
  destruct (existsb (String.eqb d) (first_occurrences two_mers)) eqn:E;
    [|discriminate].
  apply existsb_eqb_In in E. apply -> first_occurrences_In in E.
  intros [= <-]. now split.
Qed.

Lemma count_dyad (sequence dyad : string) :
  String.length dyad = 2 ->
  PyStr.count sequence dyad = Z.of_nat (PyStr.count_loop dyad 0 sequence).
Proof. destruct dyad; [discriminate | reflexivity]. Qed.

(** C2: every call of [string_two_mers] returns 400 entries, no entry twice,
    the entries being exactly the joins of two letters of [LETTERS]; the
    entry at place [20 * i + j] joins the [i]-th letter (outer position) with
    the [j]-th letter (inner position); and two calls return the same list
    in the same order. *)
Theorem string_two_mers_feature_space (call1 call2 : unit) :
  List.length LETTERS = 20
  /\ NoDup LETTERS
  /\ List.length (string_two_mers call1) = 400
  /\ NoDup (string_two_mers call1)
  /\ (forall e, In e (string_two_mers call1) <->
                exists a b, In a LETTERS /\ In b LETTERS /\ e = (a ++ b)%string)
  /\ (forall i j a b,
         nth_error LETTERS i = Some a -> nth_error LETTERS j = Some b ->
         nth_error (string_two_mers call1) (20 * i + j) = Some (a ++ b)%string)
  /\ string_two_mers call1 = string_two_mers call2.
Proof.
  destruct call1, call2.
  split; [reflexivity|].
  split.
  { assert (first_occurrences LETTERS = LETTERS) as E by (vm_compute; reflexivity).
    rewrite <- E. apply first_occurrences_NoDup. }
  split; [reflexivity|].
  split; [apply string_two_mers_NoDup|].
  split; [|split; [|reflexivity]].
  - intros e. unfold string_two_mers. rewrite in_map_iff. split.
    + intros ([a b] & <- & H). apply in_flat_map in H.
      destruct H as (x & Hx & H). apply in_map_iff in H.
      destruct H as (y & [= <- <-] & Hy). now exists x, y.
    + intros (a & b & Ha & Hb & ->). exists (a, b). split; [reflexivity|].
      apply in_flat_map. exists a. split; [assumption|].
      apply in_map_iff. now exists b.
  - intros i j a b Ha Hb. unfold string_two_mers.
    change 20 with (List.length LETTERS).
    apply (map_nth_error join2 _ _ (d := (a, b))).
    exact (nth_error_product pair LETTERS LETTERS i j a b Ha Hb).
Qed.

(** The entry of [string_two_mers()] at place 20 * 1 + 2 is "CD". *)
Lemma string_two_mers_feature_space_witness :
  nth_error (string_two_mers tt) (20 * 1 + 2) = Some "CD".
Proof.
  apply (proj1 (proj2 (proj2 (proj2 (proj2 (proj2
           (string_two_mers_feature_space tt tt))))))) with (a := "C") (b := "D");
    reflexivity.
Defined.

(** C10: the count that [count_two_mers] stores for a dyad lies between 0
    and half the length of the sequence, rounded down; on the empty sequence
    it is 0. *)
Theorem count_two_mers_bounds (sequence : string) (two_mers : list string)
        (dyad : string) (c : Z) :
  String.length dyad = 2 ->
  PyDict.get (count_two_mers sequence two_mers) dyad = Some c ->
  (0 <= c <= Z.of_nat (String.length sequence) / 2)%Z
  /\ (sequence = "" -> c = 0%Z).
Proof.
  intros Hd Hc. apply get_count_two_mers_inv in Hc. destruct Hc as [_ ->].
  rewrite (count_dyad _ _ Hd).
  assert (dyad <> EmptyString) as Hne by (destruct dyad; [discriminate|congruence]).
  pose proof (PyStrFacts.count_loop_fits dyad sequence 0 Hne) as F.
  rewrite Hd, Nat.sub_0_r in F.
  split.
  - split; [lia|]. apply Z.div_le_lower_bound; lia.
  - intros ->. reflexivity.
Qed.

(** "AA" in "AAAA": 2 is within the bounds 0 and 4 / 2. *)
Lemma count_two_mers_bounds_witness :
  (0 <= 2 <= Z.of_nat (String.length "AAAA") / 2)%Z /\ ("AAAA" = "" -> 2 = 0)%Z.
Proof.
  apply (count_two_mers_bounds "AAAA" (string_two_mers tt) "AA" 2%Z);
    vm_compute; reflexivity.
Defined.

(** C1: for every sequence and every dyad of the feature space, the count
    that [count_two_mers] stores is the number of matches of the
    non-overlapping left-to-right scan, which moves on by 2 after a match,
    and more fuel never changes that number; "AA" in "AAAA" is counted 2
    times, at 0 and 2, while it occurs 3 times when overlaps count. *)
Theorem count_two_mers_nonoverlapping (sequence dyad : string) :
  In dyad (string_two_mers tt) ->
  PyDict.get (count_two_mers sequence (string_two_mers tt)) dyad
  = Some (ScanSpec.nonoverlapping_count dyad sequence)
  /\ (forall fuel, String.length sequence < fuel ->
        Z.of_nat (List.length (ScanSpec.scan fuel dyad sequence 0))
        = ScanSpec.nonoverlapping_count dyad sequence)
  /\ PyDict.get (count_two_mers "AAAA" (string_two_mers tt)) "AA" = Some 2%Z
  /\ ScanSpec.match_positions "AA" "AAAA" = [0; 2]
  /\ ScanSpec.overlapping_count "AA" "AAAA" = 3%Z.
Proof.
  intros Hin. pose proof (string_two_mers_length2 dyad Hin) as Hd.
  assert (forall fuel, String.length sequence < fuel ->
            List.length (ScanSpec.scan fuel dyad sequence 0)
            = PyStr.count_loop dyad 0 sequence) as Hscan.
  { intros fuel Hf.
    rewrite (PyStrFacts.scan_count_loop dyad sequence Hd fuel 0) by lia.
    reflexivity. }
  assert (ScanSpec.nonoverlapping_count dyad sequence
          = Z.of_nat (PyStr.count_loop dyad 0 sequence)) as Hn.
  { unfold ScanSpec.nonoverlapping_count, ScanSpec.match_positions.
    rewrite Hscan by lia. reflexivity. }
  split; [|split; [|split; [|split]]].
  - rewrite (get_count_two_mers _ _ _ Hin), Hn. f_equal. now apply count_dyad.
  - intros fuel Hf. rewrite Hn. f_equal. now apply Hscan.
  - vm_compute. reflexivity.
  - reflexivity.
  - reflexivity.
Qed.

(** The dyad "CA" in "ACACAC": counted 2 times, at 1 and 3. *)
Lemma count_two_mers_nonoverlapping_witness :
  PyDict.get (count_two_mers "ACACAC" (string_two_mers tt)) "CA" = Some 2%Z
  /\ ScanSpec.match_positions "CA" "ACACAC" = [1; 3].
Proof.
  split; [|reflexivity].
  refine (eq_trans
            (proj1 (count_two_mers_nonoverlapping "ACACAC" "CA" _)) _).
  - vm_compute. tauto.
  - reflexivity.
Defined.

(** ** The feature matrix *)

Lemma combine_tabulate {A B : Type} (f : A -> B) (l : list A) :
  combine l (map f l) = map (fun x => (x, f x)) l.
Proof. induction l as [|x l IH]; simpl; [reflexivity | now rewrite IH]. Qed.

Lemma fold_left_same {A B : Type} (f g : A -> B -> A) (l : list B) (a : A) :
  (forall x y, f x y = g x y) -> fold_left f l a = fold_left g l a.
Proof.
  intros E. revert a. induction l as [|y l IH]; intros a; simpl; [reflexivity|].
  now rewrite E, IH.
Qed.

(** A dictionary is the table of its values over its keys. *)
Lemma dict_tabulate {V : Type} (f : string -> V) (d : PyDict.t V) :
  NoDup (PyDict.keys d) ->
  (forall k, In k (PyDict.keys d) -> PyDict.get d k = Some (f k)) ->
  d = map (fun k => (k, f k)) (PyDict.keys d).
Proof.
  induction d as [|[k v] d IH]; simpl; intros ND H; [reflexivity|].
  inversion ND as [|? ? Hk ND']; subst.
  f_equal.
  - specialize (H k (or_introl eq_refl)). rewrite String.eqb_refl in H.
    now injection H as ->.
  - apply IH; [assumption|]. intros k' Hk'.
    specialize (H k' (or_intror Hk')).
    destruct (String.eqb k k') eqn:E; [|assumption].
    apply String.eqb_eq in E. subst. contradiction.
Qed.

Section CountDictionary.
Variable two_mers : list string.

Let step (dictionary : PyDict.t (PyDict.t Z)) (fasta : fasta) :=
  PyDict.set dictionary (id fasta) (count_two_mers (seq fasta) two_mers).

Lemma keys_fold_count_dictionary (fastas : list fasta) (acc : PyDict.t (PyDict.t Z)) :
  PyDict.keys (fold_left step fastas acc)
  = fold_left add_label (map id fastas) (PyDict.keys acc).
Proof.
  revert acc. induction fastas as [|f fastas IH]; intros acc; simpl; [reflexivity|].
  rewrite IH. unfold step. now rewrite PyDictFacts.keys_set.
Qed.

Lemma get_fold_count_dictionary (fastas : list fasta) (acc : PyDict.t (PyDict.t Z))
      (i : string) :
  PyDict.get (fold_left step fastas acc) i
  = match last_with_id fastas i with
    | Some f => Some (count_two_mers (seq f) two_mers)
    | None => PyDict.get acc i
    end.
Proof.
  revert acc. induction fastas as [|f fastas IH]; intros acc; simpl; [reflexivity|].
  rewrite IH. destruct (last_with_id fastas i); [reflexivity|].
  unfold step. destruct (String.eqb (id f) i) eqn:E.
  - apply String.eqb_eq in E. subst. apply PyDictFacts.get_set_eq.
  - apply String.eqb_neq in E. now apply PyDictFacts.get_set_neq.
Qed.

Lemma keys_count_dictionary (fastas : list fasta) :
  PyDict.keys (count_dictionary two_mers fastas)
  = first_occurrences (map id fastas).
Proof. apply keys_fold_count_dictionary. Qed.

Lemma last_with_id_In (fastas : list fasta) (i : string) :
  In i (map id fastas) ->
  exists f, last_with_id fastas i = Some f /\ In f fastas /\ id f = i.
Proof.
  induction fastas as [|f fastas IH]; simpl; [tauto|].
  intros H. destruct (last_with_id fastas i) as [g|] eqn:L.
  - destruct (in_dec string_dec i (map id fastas)) as [Hi|Hn].
    + destruct (IH Hi) as (g' & [= <-] & Hg & Hid). exists g. auto.
    + clear IH H. exfalso. apply Hn. clear Hn.
      revert g L. induction fastas as [|f' fastas IH']; simpl; [discriminate|].
      intros g. destruct (last_with_id fastas i) as [g'|].
      * intros _. right. now apply (IH' g').
      * destruct (String.eqb (id f') i) eqn:E; [|discriminate].
        apply String.eqb_eq in E. now left.
  - destruct H as [H|H].
    + subst. rewrite String.eqb_refl. exists f. auto.
    + destruct (IH H) as (g & Hg & _). discriminate.
Qed.

(** The dictionary holds, for every identifier in the order of first
    occurrence, the counts of the last record with that identifier. *)
Lemma count_dictionary_tabulate (fastas : list fasta) :
  count_dictionary two_mers fastas
  = map (fun i => (i, count_two_mers (seq_of_last fastas i) two_mers))
        (first_occurrences (map id fastas)).
Proof.
  rewrite <- keys_count_dictionary.
  apply dict_tabulate.
  - rewrite keys_count_dictionary. apply first_occurrences_NoDup.
  - intros i Hi. rewrite keys_count_dictionary in Hi.
    apply -> first_occurrences_In in Hi.
    unfold count_dictionary. fold step.
    rewrite get_fold_count_dictionary. unfold seq_of_last.
    destruct (last_with_id_In fastas i Hi) as (f & -> & _). reflexivity.
Qed.
End CountDictionary.

(** Turning rows into columns.  The rows are those of a table: every row
    has the cells [val i c] under the same labels [cols]. *)
Section Transpose.
Variable cols : list string.
Variable val : string -> string -> Z.
Hypothesis cols_NoDup : NoDup cols.

Let mkrow (i : string) : string * PyDict.t Z :=
  (i, map (fun c => (c, val i c)) cols).

Let column (ids : list string) (c : string) : PyDict.t Z :=
  map (fun i => (i, val i c)) ids.

Let cellstep (i : string) (nd : PyDict.t (PyDict.t Z)) (cell : string * Z) :=
  let '(col, v) := cell in
  PyDict.set nd col (PyDict.set (PyDict.get_default nd col PyDict.empty) i v).

(** The first row creates the columns, in the order of its cells. *)
Lemma first_row_columns (i : string) (cs : list string) (nd : PyDict.t (PyDict.t Z)) :
  NoDup (PyDict.keys nd ++ cs) ->
  fold_left (cellstep i) (map (fun c => (c, val i c)) cs) nd
  = nd ++ map (fun c => (c, [(i, val i c)])) cs.
Proof.
  revert nd. induction cs as [|c cs IH]; intros nd ND; simpl.
  - now rewrite app_nil_r.
  - assert (~ In c (PyDict.keys nd)) as Hc.
    { intros Hc. apply NoDup_remove_2 in ND. apply ND.
      apply in_or_app. now left. }
    unfold PyDict.get_default.
    rewrite (proj2 (PyDictFacts.get_None nd c) Hc).
    rewrite (PyDictFacts.set_fresh nd c _ Hc).
    rewrite IH.
    + rewrite <- app_assoc. reflexivity.
    + unfold PyDict.keys. rewrite map_app, <- app_assoc. exact ND.
Qed.

(** A later row extends every column, which stays where it is. *)
Lemma later_row_columns (i : string) (old : string -> PyDict.t Z)
      (cs : list string) (pre : PyDict.t (PyDict.t Z)) :
  NoDup (PyDict.keys pre ++ cs) ->
  fold_left (cellstep i) (map (fun c => (c, val i c)) cs)
            (pre ++ map (fun c => (c, old c)) cs)
  = pre ++ map (fun c => (c, PyDict.set (old c) i (val i c))) cs.
Proof.
  revert pre. induction cs as [|c cs IH]; intros pre ND; simpl; [reflexivity|].
  assert (~ In c (PyDict.keys pre)) as Hc.
  { intros Hc. apply NoDup_remove_2 in ND. apply ND.
    apply in_or_app. now left. }
  unfold PyDict.get_default.
  rewrite (PyDictFacts.get_app_fresh pre _ c Hc). simpl.
  rewrite String.eqb_refl.
  rewrite (PyDictFacts.set_in_place pre _ c (old c) _ Hc).
  change (pre ++ (c, PyDict.set (old c) i (val i c)) :: map (fun c0 => (c0, old c0)) cs)
    with (pre ++ [(c, PyDict.set (old c) i (val i c))] ++ map (fun c0 => (c0, old c0)) cs).
  rewrite app_assoc, IH.
  - rewrite <- app_assoc. reflexivity.
  - unfold PyDict.keys. rewrite map_app, <- app_assoc. exact ND.
Qed.

Lemma more_rows_columns (todo done : list string) :
  NoDup (done ++ todo) ->
  fold_left
    (fun new_data row => fold_left (cellstep (fst row)) (snd row) new_data)
    (map mkrow todo) (map (fun c => (c, column done c)) cols)
  = map (fun c => (c, column (done ++ todo) c)) cols.
Proof.
  revert done. induction todo as [|i todo IH]; intros done ND; simpl.
  - now rewrite app_nil_r.
  - pose proof (later_row_columns i (column done) cols [] cols_NoDup) as L.
    cbn [app] in L. rewrite L. clear L.
    assert (~ In i done) as Hi.
    { intros Hi. apply NoDup_remove_2 in ND. apply ND.
      apply in_or_app. now left. }
    rewrite (map_ext (fun c => (c, PyDict.set (column done c) i (val i c)))
                     (fun c => (c, column (done ++ [i]) c))).
    + rewrite IH; rewrite <- app_assoc; [reflexivity | exact ND].
    + intros c. f_equal. unfold column. rewrite PyDictFacts.set_fresh.
      * now rewrite map_app.
      * unfold PyDict.keys. rewrite map_map. simpl. now rewrite map_id.
Qed.

(** [_from_nested_dict] on a table with at least one row: the columns come
    out in the order of [cols], each with the rows in their order. *)
Lemma from_nested_dict_table (ids : list string) :
  NoDup ids -> ids <> [] ->
  from_nested_dict (map mkrow ids) = map (fun c => (c, column ids c)) cols.
Proof.
  intros ND Hne. destruct ids as [|i ids]; [congruence|].
  unfold from_nested_dict.
  rewrite (fold_left_same _
             (fun new_data row => fold_left (cellstep (fst row)) (snd row) new_data))
    by (intros nd [j s]; reflexivity).
  change (map mkrow (i :: ids)) with (mkrow i :: map mkrow ids).
  cbn [fold_left]. unfold PyDict.empty.
  change (fst (mkrow i)) with i.
  change (snd (mkrow i)) with (map (fun c => (c, val i c)) cols).
  pose proof (first_row_columns i cols [] cols_NoDup) as L.
  cbn [app] in L. rewrite L. clear L.
  exact (more_rows_columns ids [i] ND).
Qed.
End Transpose.

Lemma union_indexes_same {A : Type} (ids : list string) (l : list A) :
  NoDup ids -> l <> [] ->
  union_indexes (map (fun _ => ids) l) = ids.
Proof.
  intros ND Hne. destruct l as [|x l]; [congruence|].
  unfold union_indexes. simpl.
  rewrite (add_labels_fresh ids []) by exact ND. simpl.
  clear x Hne. induction l as [|x l IH]; simpl; [reflexivity|].
  rewrite add_labels_seen by apply incl_refl. exact IH.
Qed.

(** [DataFrame(data)] on the columns of a table. *)
Lemma of_columns_table (cols ids : list string) (val : string -> string -> Z) :
  NoDup ids -> cols <> [] ->
  of_columns (map (fun c => (c, map (fun i => (i, val i c)) ids)) cols)
  = {| columns := cols;
       index := ids;
       data := map (fun i => map (fun c => Some (val i c)) cols) ids |}.
Proof.
  intros ND Hne. unfold of_columns.
  assert (union_indexes
            (map (fun c : string * PyDict.t Z => PyDict.keys (snd c))
                 (map (fun c => (c, map (fun i => (i, val i c)) ids)) cols)) = ids) as Hidx.
  { rewrite map_map.
    rewrite (map_ext _ (fun _ : string => ids)).
    - now apply union_indexes_same.
    - intros c. unfold PyDict.keys. simpl. rewrite map_map. simpl. apply map_id. }
  rewrite Hidx. f_equal.
  - unfold PyDict.keys. rewrite map_map. simpl. apply map_id.
  - apply map_ext_in. intros i Hi. rewrite map_map. apply map_ext. intros c.
    simpl. rewrite (PyDictFacts.get_tabulate (fun i' => val i' c)).
    apply existsb_eqb_In in Hi. now rewrite Hi.
Qed.

(** [DataFrame(data, index=ids)] on the columns of a table. *)
Lemma of_columns_at_table (cols ids : list string) (val : string -> string -> Z) :
  of_columns_at ids (map (fun c => (c, map (fun i => (i, val i c)) ids)) cols)
  = {| columns := cols;
       index := ids;
       data := map (fun i => map (fun c => Some (val i c)) cols) ids |}.
Proof.
  unfold of_columns_at. f_equal.
  - unfold PyDict.keys. rewrite map_map. simpl. apply map_id.
  - apply map_ext_in. intros i Hi. rewrite map_map. apply map_ext. intros c.
    simpl. rewrite (PyDictFacts.get_tabulate (fun i' => val i' c)).
    apply existsb_eqb_In in Hi. now rewrite Hi.
Qed.

(** The frame that [construct_dataframe] builds, whatever the patterns and
    the records are: one row per identifier, in the order in which the
    identifiers are first met; the columns are the patterns in the order in
    which they are first met; a row holds the counts of the last record with
    its identifier. *)
Lemma feature_matrix_eq_any (two_mers : list string) (fastas : list fasta) :
  feature_matrix two_mers fastas
  = {| columns := match fastas with
                  | [] => []
                  | _ :: _ => first_occurrences two_mers
                  end;
       index := first_occurrences (map id fastas);
       data := map (fun i => map (fun c => Some (PyStr.count (seq_of_last fastas i) c))
                                 (first_occurrences two_mers))
                   (first_occurrences (map id fastas)) |}.
Proof.
  unfold feature_matrix.
  rewrite count_dictionary_tabulate.
  rewrite (map_ext _ (fun i => (i, map (fun c => (c, PyStr.count (seq_of_last fastas i) c))
                                       (first_occurrences two_mers))))
    by (intros i; now rewrite count_two_mers_tabulate).
  destruct (first_occurrences (map id fastas)) as [|i ids] eqn:E.
  - apply first_occurrences_nil in E. destruct fastas; [reflexivity|discriminate].
  - assert (NoDup (i :: ids)) as ND by (rewrite <- E; apply first_occurrences_NoDup).
    assert (fastas <> []) as Hf by (intros ->; discriminate).
    destruct fastas as [|f fastas']; [congruence|]. clear Hf.
    set (fs := f :: fastas') in *.
    set (table := map (fun i0 => (i0, map (fun c => (c, PyStr.count (seq_of_last fs i0) c))
                                          (first_occurrences two_mers))) (i :: ids)).
    assert (PyDict.keys table = i :: ids) as Hkeys.
    { unfold table, PyDict.keys. rewrite map_map. simpl. f_equal. apply map_id. }
    change (from_dict_index table)
      with (of_columns_at (PyDict.keys table) (from_nested_dict table)).
    rewrite Hkeys.
    pose proof (from_nested_dict_table (first_occurrences two_mers)
                  (fun i0 c => PyStr.count (seq_of_last fs i0) c)
                  (first_occurrences_NoDup two_mers) (i :: ids) ND
                  ltac:(discriminate)) as T.
    cbv beta in T. refine (eq_trans (f_equal (of_columns_at (i :: ids)) T) _).
    clear T.
    apply (of_columns_at_table (first_occurrences two_mers) (i :: ids)
             (fun i0 c => PyStr.count (seq_of_last fs i0) c)).
Qed.

(** The frame that [construct_dataframe] builds: one row per identifier, in
    the order in which the identifiers are first met; the columns are the
    dyads in the order of [two_mers]; a row holds the counts of the last
    record with its identifier. *)
Lemma feature_matrix_eq (two_mers : list string) (fastas : list fasta) :
  two_mers <> [] ->
  feature_matrix two_mers fastas
  = {| columns := match fastas with
                  | [] => []
                  | _ :: _ => first_occurrences two_mers
                  end;
       index := first_occurrences (map id fastas);
       data := map (fun i => map (fun c => Some (PyStr.count (seq_of_last fastas i) c))
                                 (first_occurrences two_mers))
                   (first_occurrences (map id fastas)) |}.
Proof. intros _. apply feature_matrix_eq_any. Qed.

Lemma rows_feature_matrix_any (two_mers : list string) (fastas : list fasta) :
  rows (feature_matrix two_mers fastas)
  = map (fun i => (i, feature_vector (first_occurrences two_mers) (seq_of_last fastas i)))
        (first_occurrences (map id fastas)).
Proof.
  rewrite (feature_matrix_eq_any two_mers fastas).
  destruct fastas as [|f fastas']; [reflexivity|].
  unfold rows. cbn [columns index data].
  rewrite map_map, combine_tabulate. apply map_ext. intros i. f_equal.
  unfold feature_vector. now rewrite combine_tabulate.
Qed.

Lemma rows_feature_matrix (two_mers : list string) (fastas : list fasta) :
  two_mers <> [] ->
  rows (feature_matrix two_mers fastas)
  = map (fun i => (i, feature_vector (first_occurrences two_mers) (seq_of_last fastas i)))
        (first_occurrences (map id fastas)).
Proof.
  intros Hne. rewrite (feature_matrix_eq two_mers fastas Hne).
  destruct fastas as [|f fastas']; [reflexivity|].
  unfold rows. cbn [columns index data].
  rewrite map_map, combine_tabulate. apply map_ext. intros i. f_equal.
  unfold feature_vector. now rewrite combine_tabulate.
Qed.

Lemma string_two_mers_first_occurrences :
  first_occurrences (string_two_mers tt) = string_two_mers tt.
Proof. apply first_occurrences_id, string_two_mers_NoDup. Qed.

Lemma string_two_mers_not_nil : string_two_mers tt <> [].
Proof. discriminate. Qed.

(** ** Frames with a column of labels *)

Lemma existsb_add_label (col : string) (cols : list string) :
  existsb (String.eqb col)
          (if existsb (String.eqb col) cols then cols else cols ++ [col]) = true.
Proof.
  destruct (existsb (String.eqb col) cols) eqn:E; [exact E|].
  rewrite existsb_app. simpl. rewrite String.eqb_refl. apply orb_true_r.
Qed.

(** After [df[col] = values], the cell under [col] is the value. *)
Lemma cell_of_set_cell (cols : list string) (row : list (option Z))
      (col : string) (v : Z) :
  List.length row = List.length cols ->
  cell_of (if existsb (String.eqb col) cols then cols else cols ++ [col])
          (set_cell cols row col v) col = Some v.
Proof.
  revert row. induction cols as [|c cols IH]; intros [|x row] L;
    simpl in L; try discriminate.
  - simpl. now rewrite String.eqb_refl.
  - injection L as L. specialize (IH row L).
    cbn [existsb set_cell]. rewrite (String.eqb_sym col c).
    destruct (String.eqb c col) eqn:E; cbn [orb].
    + simpl. now rewrite E.
    + destruct (existsb (String.eqb col) cols); simpl; rewrite E; exact IH.
Qed.

Lemma label_lines (cols : list string) (col : string) :
  forall (ids : list string) (rows : list (list (option Z))) (prediction : list Z),
    Forall (fun row => List.length row = List.length cols) rows ->
    List.length rows = List.length ids ->
    map (fun r : string * list (option Z) => fst r :: map str_of_cell (snd r))
        (combine ids
           (map (fun row => [cell_of (if existsb (String.eqb col) cols
                                      then cols else cols ++ [col]) row col])
                (map (fun rv => set_cell cols (fst rv) col (snd rv))
                     (combine rows prediction))))
    = map (fun il => [fst il; str_of_Z (snd il)]) (combine ids prediction).
Proof.
  induction ids as [|i ids IH]; intros rows prediction W L; [reflexivity|].
  destruct rows as [|row rows]; [discriminate|].
  inversion W as [|? ? Hrow W']; subst.
  destruct prediction as [|v prediction]; [reflexivity|].
  cbn [combine map fst snd]. rewrite (cell_of_set_cell cols row col v Hrow).
  simpl in L. injection L as L. rewrite (IH rows prediction W' L). reflexivity.
Qed.

(** What is written for a frame to which the labels were added. *)
Lemma to_csv_labels (df df' result : DataFrame) (col index_label : string)
      (prediction : list Z) :
  Forall (fun row => List.length row = List.length (columns df)) (data df) ->
  List.length (data df) = List.length (index df) ->
  setitem df col prediction = Some df' ->
  single_column df' col = Some result ->
  to_csv result index_label = label_table index_label col (index df) prediction.
Proof.
  intros W L. unfold setitem.
  destruct (Nat.eqb (List.length prediction) (List.length (index df)));
    [|discriminate].
  intros [= <-]. unfold single_column. cbn [columns index data].
  rewrite existsb_add_label. intros [= <-].
  unfold to_csv, label_table. cbn [columns index data]. f_equal.
  now apply label_lines.
Qed.

Lemma setitem_single_column (df : DataFrame) (col : string) (prediction : list Z) :
  List.length prediction = List.length (index df) ->
  exists df' result,
    setitem df col prediction = Some df' /\ single_column df' col = Some result.
Proof.
  intros L. unfold setitem. rewrite L, Nat.eqb_refl.
  eexists. eexists. split; [reflexivity|].
  unfold single_column. cbn [columns index data].
  rewrite existsb_add_label. reflexivity.
Qed.

Lemma feature_matrix_well_formed (two_mers : list string) (fastas : list fasta) :
  two_mers <> [] ->
  Forall (fun row => List.length row
                     = List.length (columns (feature_matrix two_mers fastas)))
         (data (feature_matrix two_mers fastas))
  /\ List.length (data (feature_matrix two_mers fastas))
     = List.length (index (feature_matrix two_mers fastas)).
Proof.
  intros Hne. rewrite (feature_matrix_eq two_mers fastas Hne).
  cbn [columns index data]. split; [|apply length_map].
  apply Forall_forall. intros row Hrow. apply in_map_iff in Hrow.
  destruct Hrow as (i & <- & Hi). rewrite length_map.
  destruct fastas; [destruct Hi | reflexivity].
Qed.

(** ** Runs *)

Lemma bind_assoc {A B C : Type} (m : M A) (f : A -> M B) (g : B -> M C) :
  bind (bind m f) g = bind m (fun a => bind (f a) g).
Proof.
  destruct m as [[a|e] t]; [|reflexivity]. simpl.
  destruct (f a) as [[b|e] t']; [|reflexivity]. simpl.
  destruct (g b) as [r t'']. now rewrite app_assoc.
Qed.

Lemma files_written_app (t t' : list event) :
  files_written (t ++ t') = files_written t ++ files_written t'.
Proof. apply flat_map_app. Qed.

Lemma only_prints_app (t t' : list event) :
  only_prints t -> only_prints t' -> only_prints (t ++ t').
Proof.
  unfold only_prints. intros H H'. rewrite forallb_app, H, H'. reflexivity.
Qed.

Lemma only_prints_files (t : list event) : only_prints t -> files_written t = [].
Proof.
  unfold only_prints. induction t as [|e t IH]; [reflexivity|].
  simpl. destruct e; simpl; try discriminate. exact IH.
Qed.

Lemma only_prints_no_classifier (t : list event) :
  only_prints t -> existsb is_classifier_call t = false.
Proof.
  unfold only_prints. induction t as [|e t IH]; [reflexivity|].
  simpl. destruct e; simpl; try discriminate. exact IH.
Qed.

Lemma only_prints_not_In (t : list event) (e : event) :
  only_prints t -> is_print e = false -> ~ In e t.
Proof.
  unfold only_prints. intros H He Hin.
  rewrite forallb_forall in H. specialize (H e Hin). congruence.
Qed.

Section PipelineFacts.
Variable env : Collaborators.

(** What reading one file gives, by the outcome of the parser. *)
Lemma read_fastas_from_file_eq (file : string) :
  read_fastas_from_file env file
  = match SeqIO_parse env file with
    | (records, None) =>
        (Ok records,
         [Print ("Number of sequences in '" ++ file ++ "': "
                 ++ PyStr.of_nat (List.length records))])
    | (_, Some _) => (Ok [], [Print ("Failed to load file '" ++ file ++ "'.")])
    end.
Proof.
  unfold read_fastas_from_file.
  destruct (SeqIO_parse env file) as [records [e|]]; reflexivity.
Qed.

Lemma read_fastas_from_file_ok (file : string) :
  exists rs t, read_fastas_from_file env file = (Ok rs, t) /\ only_prints t.
Proof.
  rewrite read_fastas_from_file_eq.
  destruct (SeqIO_parse env file) as [records [e|]];
    eexists; eexists; split; reflexivity.
Qed.

(** Reading the entries of a directory never raises and only prints. *)
Lemma read_entries_ok (directory : string) (filenames : list string) :
  forall fastas, exists rs t,
    read_entries env directory filenames fastas = (Ok rs, t) /\ only_prints t.
Proof.
  induction filenames as [|filename rest IH]; intros fastas.
  - exists fastas, []. split; reflexivity.
  - cbn [read_entries].
    destruct (read_fastas_from_file_ok (path_join directory filename))
      as (more & t & -> & Ht).
    destruct (IH (fastas ++ more)) as (rs & t' & E & Ht').
    exists rs, (t ++ t'). cbn [bind]. rewrite E. split; [reflexivity|].
    now apply only_prints_app.
Qed.

(** Reading a list of entries is reading its first part, then the rest. *)
Lemma read_entries_app (directory : string) (before after : list string) :
  forall fastas,
    read_entries env directory (before ++ after) fastas
    = bind (read_entries env directory before fastas)
           (read_entries env directory after).
Proof.
  induction before as [|filename rest IH]; intros fastas.
  - cbn [app read_entries]. unfold bind, ret.
    destruct (read_entries env directory after fastas). reflexivity.
  - cbn [app read_entries]. rewrite bind_assoc.
    destruct (read_fastas_from_file env (path_join directory filename))
      as [[more|e] t]; cbn [bind]; [rewrite IH|]; reflexivity.
Qed.

(** Whatever the source is, looking for records only prints. *)
Lemma get_fastas_only_prints (source : string) :
  only_prints (snd (get_fastas env source)).
Proof.
  unfold get_fastas. destruct (isfile env source).
  - destruct (read_fastas_from_file_ok source) as (rs & t & -> & Ht). exact Ht.
  - unfold read_fastas_from_directory, print, emit, lift. cbn [bind].
    destruct (listdir env source) as [filenames|e]; [|reflexivity].
    destruct (read_entries_ok source filenames []) as (rs & t & -> & Ht).
    exact Ht.
Qed.

(** *** The ways a run of [start] can go *)

Lemma start_no_source (source output : string) (e : exn) (t0 : list event) :
  get_fastas env source = (Raise e, t0) ->
  start env source output = (Raise e, t0).
Proof. intros H. unfold start. rewrite H. reflexivity. Qed.

Lemma start_no_records (source output : string) (t0 : list event) :
  get_fastas env source = (Ok [], t0) ->
  start env source output = (Ok tt, t0 ++ [Print "No fasta records found."]).
Proof. intros H. unfold start. rewrite H. reflexivity. Qed.

(** The run from the count of the records on, the frame being any frame. *)
Ltac run_step :=
  cbn [bind print emit ret lift raise or_raise List.length Nat.eqb app fst snd].

Ltac run_start H :=
  unfold start; rewrite H;
  match goal with
  | Hne : ?fastas <> [] |- _ =>
      destruct fastas as [|?f ?fs]; [congruence|]
  end;
  unfold trace_to_load, trace_of_prediction, model_source,
    construct_dataframe, make_prediction;
  run_step.

Lemma start_load_fails (source output : string) (fastas : list fasta)
      (t0 : list event) (e : exn) :
  get_fastas env source = (Ok fastas, t0) -> fastas <> [] ->
  joblib_load env (model_source env) = Raise e ->
  start env source output = (Raise e, t0 ++ trace_to_load env fastas).
Proof.
  intros H Hne Hload. unfold model_source in Hload. run_start H.
  rewrite Hload. run_step. reflexivity.
Qed.

Lemma start_predict_fails (source output : string) (fastas : list fasta)
      (t0 : list event) (model : Model) (e : exn) :
  get_fastas env source = (Ok fastas, t0) -> fastas <> [] ->
  joblib_load env (model_source env) = Ok model ->
  predict model (feature_matrix (string_two_mers tt) fastas) = Raise e ->
  start env source output
  = (Raise e,
     t0 ++ trace_to_load env fastas
        ++ [Predict (feature_matrix (string_two_mers tt) fastas)]).
Proof.
  intros H Hne Hload Hpred. unfold model_source in Hload. run_start H.
  rewrite Hload. run_step. rewrite Hpred. run_step. reflexivity.
Qed.

Lemma start_misaligned (source output : string) (fastas : list fasta)
      (t0 : list event) (model : Model) (prediction : list Z) :
  get_fastas env source = (Ok fastas, t0) -> fastas <> [] ->
  joblib_load env (model_source env) = Ok model ->
  predict model (feature_matrix (string_two_mers tt) fastas) = Ok prediction ->
  List.length prediction
  <> List.length (index (feature_matrix (string_two_mers tt) fastas)) ->
  start env source output
  = (Raise (Exception "ValueError" ""),
     t0 ++ trace_to_load env fastas
        ++ trace_of_prediction env (feature_matrix (string_two_mers tt) fastas)
                               prediction).
Proof.
  intros H Hne Hload Hpred Hlen. unfold model_source in Hload.
  apply Nat.eqb_neq in Hlen. run_start H.
  rewrite Hload. run_step. rewrite Hpred. run_step.
  unfold setitem. rewrite Hlen. run_step. reflexivity.
Qed.

Lemma start_unwritable (source output : string) (fastas : list fasta)
      (t0 : list event) (model : Model) (prediction : list Z) (e : exn) :
  get_fastas env source = (Ok fastas, t0) -> fastas <> [] ->
  joblib_load env (model_source env) = Ok model ->
  predict model (feature_matrix (string_two_mers tt) fastas) = Ok prediction ->
  List.length prediction
  = List.length (index (feature_matrix (string_two_mers tt) fastas)) ->
  write_error env output = Some e ->
  start env source output
  = (Raise e,
     t0 ++ trace_to_load env fastas
        ++ trace_of_prediction env (feature_matrix (string_two_mers tt) fastas)
                               prediction).
Proof.
  intros H Hne Hload Hpred Hlen Hw. unfold model_source in Hload.
  destruct (setitem_single_column _ "prediction" prediction Hlen)
    as (df' & result & Hset & Hcol).
  run_start H.
  rewrite Hload. run_step. rewrite Hpred. run_step.
  rewrite Hset. run_step. rewrite Hcol. run_step.
  unfold write_csv. rewrite Hw. run_step. reflexivity.
Qed.

Lemma start_written (source output : string) (fastas : list fasta)
      (t0 : list event) (model : Model) (prediction : list Z) :
  get_fastas env source = (Ok fastas, t0) -> fastas <> [] ->
  joblib_load env (model_source env) = Ok model ->
  predict model (feature_matrix (string_two_mers tt) fastas) = Ok prediction ->
  List.length prediction
  = List.length (index (feature_matrix (string_two_mers tt) fastas)) ->
  write_error env output = None ->
  start env source output
  = (Ok tt,
     t0 ++ trace_to_load env fastas
        ++ trace_of_prediction env (feature_matrix (string_two_mers tt) fastas)
                               prediction
        ++ [ToCsv output
              (label_table "Protein ID" "prediction"
                 (first_occurrences (map id fastas)) prediction);
            Print ("Predictions saved to " ++ output ++ ".")]).
Proof.
  intros H Hne Hload Hpred Hlen Hw. unfold model_source in Hload.
  destruct (setitem_single_column _ "prediction" prediction Hlen)
    as (df' & result & Hset & Hcol).
  destruct (feature_matrix_well_formed (string_two_mers tt) fastas
              string_two_mers_not_nil) as [W L].
  pose proof (to_csv_labels _ _ _ _ "Protein ID" _ W L Hset Hcol) as Hcsv.
  assert (index (feature_matrix (string_two_mers tt) fastas)
          = first_occurrences (map id fastas)) as Hidx
      by (rewrite (feature_matrix_eq _ _ string_two_mers_not_nil); reflexivity).
  rewrite Hidx in Hcsv. clear W L Hidx Hlen.
  run_start H.
  rewrite Hload. run_step. rewrite Hpred. run_step.
  rewrite Hset. run_step. rewrite Hcol. run_step.
  unfold write_csv. rewrite Hw. run_step. rewrite Hcsv. reflexivity.
Qed.

End PipelineFacts.

Lemma construct_dataframe_eq (two_mers : list string) (fastas : list fasta) :
  construct_dataframe two_mers fastas
  = (Ok (feature_matrix two_mers fastas),
     [Print "Constructing 2mer dataframe:"; Print "Dataframe constructed!"]).
Proof. reflexivity. Qed.

(** ** The claims about the feature matrix *)

(** C3: whatever the records are, [construct_dataframe] returns a frame in
    which every row has its cells under the dyads of the feature space, in
    the order of the feature space; with at least one record the frame has
    rows and its column labels are the feature space. *)
Theorem construct_dataframe_column_order (fastas : list fasta) :
  exists df t,
    construct_dataframe (string_two_mers tt) fastas = (Ok df, t)
    /\ (forall row, In row (rows df) -> map fst (snd row) = string_two_mers tt)
    /\ (fastas <> [] -> columns df = string_two_mers tt /\ rows df <> []).
Proof.
  exists (feature_matrix (string_two_mers tt) fastas). eexists.
  split; [apply construct_dataframe_eq|].
  split.
  - rewrite (rows_feature_matrix _ _ string_two_mers_not_nil).
    rewrite string_two_mers_first_occurrences.
    intros row Hrow. apply in_map_iff in Hrow. destruct Hrow as (i & <- & _).
    cbn [snd]. unfold feature_vector. rewrite map_map. apply map_id.
  - intros Hne. split.
    + rewrite (feature_matrix_eq _ _ string_two_mers_not_nil).
      destruct fastas; [congruence|]. apply string_two_mers_first_occurrences.
    + rewrite (rows_feature_matrix _ _ string_two_mers_not_nil).
      intros E. apply map_eq_nil, first_occurrences_nil, map_eq_nil in E.
      contradiction.
Qed.

(** The row of "P2" in the frame of the two example records. *)
Lemma construct_dataframe_column_order_witness :
  map fst (feature_vector (string_two_mers tt) "GGGGGG") = string_two_mers tt.
Proof.
  destruct (construct_dataframe_column_order [Examples.P1; Examples.P2])
    as (df & t & E & Hrows & _).
  apply (Hrows ("P2", feature_vector (string_two_mers tt) "GGGGGG")).
  injection E as <- _. vm_compute. right. left. reflexivity.
Defined.

(** C5, as stated: it would make the count of "CA" in "ACACAC" 0, "CA"
    being a dyad over the letters of "AC"; the count is 2. *)
Lemma example_other_dyads_not_zero :
  ~ (forall d, In d ["AA"; "AC"; "CA"; "CC"] -> d <> "AC" ->
               PyDict.get (count_two_mers (seq Examples.P1) (string_two_mers tt)) d
               = Some 0%Z).
Proof.
  intros H. specialize (H "CA").
  assert (PyDict.get (count_two_mers (seq Examples.P1) (string_two_mers tt)) "CA"
          = Some 2%Z) as E by (vm_compute; reflexivity).
  rewrite E in H. 
  assert (Some 2%Z = Some 0%Z) as F
      by (apply H; [simpl; tauto | discriminate]).
  discriminate.
Qed.

(** C5, amended: for the records "P1" with "ACACAC" and "P2" with "GGGGGG",
    the row of P1 has 3 under "AC", 2 under "CA" and 0 under every other
    dyad, the row of P2 has 3 under "GG" and 0 under every other dyad, "AC"
    among them; a run that reads these records, gets two labels from the
    model and can write, writes one table of exactly 2 lines, "P1" then
    "P2", each with its label. *)
Theorem example_two_records (env : Collaborators) (source output : string)
        (t0 : list event) (model : Model) (l1 l2 : Z) :
  get_fastas env source = (Ok [Examples.P1; Examples.P2], t0) ->
  joblib_load env (model_source env) = Ok model ->
  predict model (feature_matrix (string_two_mers tt) [Examples.P1; Examples.P2])
  = Ok [l1; l2] ->
  write_error env output = None ->
  rows (feature_matrix (string_two_mers tt) [Examples.P1; Examples.P2])
  = [("P1", map (fun d => (d, Some (if String.eqb d "AC" then 3
                                    else if String.eqb d "CA" then 2 else 0)%Z))
                (string_two_mers tt));
     ("P2", map (fun d => (d, Some (if String.eqb d "GG" then 3 else 0)%Z))
                (string_two_mers tt))]
  /\ fst (start env source output) = Ok tt
  /\ files_written (snd (start env source output))
     = [(output,
         {| sep := ",";
            header := ["Protein ID"; "prediction"];
            lines := [["P1"; str_of_Z l1]; ["P2"; str_of_Z l2]] |})].
Proof.
  intros Hget Hload Hpred Hw.
  split; [vm_compute; reflexivity|].
  assert (List.length [l1; l2]
          = List.length (index (feature_matrix (string_two_mers tt)
                                               [Examples.P1; Examples.P2]))) as Hlen
      by (vm_compute; reflexivity).
  rewrite (start_written env source output _ t0 model [l1; l2] Hget
             ltac:(discriminate) Hload Hpred Hlen Hw).
  split; [reflexivity|].
  cbn [snd]. rewrite !files_written_app.
  rewrite (only_prints_files t0)
    by (pose proof (get_fastas_only_prints env source) as P;
        now rewrite Hget in P).
  reflexivity.
Qed.

(** The run on the file with the two records and the model of all ones. *)
Lemma example_two_records_witness :
  files_written (snd (start Examples.two_records "in.fa" "out.csv"))
  = [("out.csv",
      {| sep := ",";
         header := ["Protein ID"; "prediction"];
         lines := [["P1"; "1"]; ["P2"; "1"]] |})].
Proof.
  refine (proj2 (proj2 (example_two_records Examples.two_records "in.fa" "out.csv"
            [Print "Number of sequences in 'in.fa': 2"] Examples.all_ones 1 1
            _ _ _ _)));
    vm_compute; reflexivity.
Defined.

(** ** The claims about runs *)

(** C4: when the source yields no record, [start] returns without an
    exception right after saying so: neither the loading of the model nor
    the model itself is reached, and no file is written. *)
Theorem zero_records_short_circuit (env : Collaborators) (source output : string)
        (t0 : list event) :
  get_fastas env source = (Ok [], t0) ->
  start env source output = (Ok tt, t0 ++ [Print "No fasta records found."])
  /\ existsb is_classifier_call (snd (start env source output)) = false
  /\ files_written (snd (start env source output)) = [].
Proof.
  intros H. rewrite (start_no_records env source output t0 H). cbn [snd].
  assert (only_prints (t0 ++ [Print "No fasta records found."])) as P.
  { apply only_prints_app; [|reflexivity].
    pose proof (get_fastas_only_prints env source) as P. now rewrite H in P. }
  split; [reflexivity|].
  split; [now apply only_prints_no_classifier | now apply only_prints_files].
Qed.

(** The run on an empty directory. *)
Lemma zero_records_short_circuit_witness :
  start Examples.empty_directory "seqs" "out.csv"
  = (Ok tt, [Print "Reading from directory 'seqs'."] ++ [Print "No fasta records found."])
  /\ existsb is_classifier_call (snd (start Examples.empty_directory "seqs" "out.csv"))
     = false
  /\ files_written (snd (start Examples.empty_directory "seqs" "out.csv")) = [].
Proof.
  apply (zero_records_short_circuit Examples.empty_directory "seqs" "out.csv").
  reflexivity.
Defined.

(** C8: a file on which the parser fails, for whatever reason and after
    however many records, gives no record and one printed line, not an
    exception; in a directory the entries before it and after it are read
    as if it held nothing, and reading the entries never raises. *)
Theorem parse_failure_recovered (env : Collaborators) (file : string)
        (partial : list fasta) (e : exn) :
  SeqIO_parse env file = (partial, Some e) ->
  read_fastas_from_file env file
  = (Ok [], [Print ("Failed to load file '" ++ file ++ "'.")])
  /\ (isfile env file = true ->
      get_fastas env file
      = (Ok [], [Print ("Failed to load file '" ++ file ++ "'.")]))
  /\ (forall directory filename before after fastas rs1 t1,
         path_join directory filename = file ->
         read_entries env directory before fastas = (Ok rs1, t1) ->
         exists rs2 t2,
           read_entries env directory after rs1 = (Ok rs2, t2)
           /\ read_entries env directory (before ++ filename :: after) fastas
              = (Ok rs2,
                 t1 ++ Print ("Failed to load file '" ++ file ++ "'.") :: t2)).
Proof.
  intros Hparse.
  assert (read_fastas_from_file env file
          = (Ok [], [Print ("Failed to load file '" ++ file ++ "'.")])) as Hfile
      by (rewrite read_fastas_from_file_eq, Hparse; reflexivity).
  split; [exact Hfile|]. split.
  - intros Hf. unfold get_fastas. now rewrite Hf.
  - intros directory filename before after fastas rs1 t1 Hpath Hbefore.
    destruct (read_entries_ok env directory after rs1) as (rs2 & t2 & Hafter & _).
    exists rs2, t2. split; [exact Hafter|].
    rewrite read_entries_app, Hbefore. cbn [bind read_entries].
    rewrite Hpath, Hfile. cbn [bind]. rewrite app_nil_r, Hafter. reflexivity.
Qed.

(** The directory whose second entry is broken: the records of the first
    and of the third entry are read. *)
Lemma parse_failure_recovered_witness :
  get_fastas Examples.broken_entry "seqs"
  = (Ok [Examples.P1; Examples.P2],
     [Print "Reading from directory 'seqs'.";
      Print "Number of sequences in 'seqs/a.fa': 1";
      Print "Failed to load file 'seqs/bad.fa'.";
      Print "Number of sequences in 'seqs/b.fa': 1"]).
Proof.
  destruct (parse_failure_recovered Examples.broken_entry "seqs/bad.fa"
              [Examples.P1_again] (Exception "ValueError" "bad.fa") eq_refl)
    as (_ & _ & H).
  destruct (H "seqs" "bad.fa" ["a.fa"] ["b.fa"] [] [Examples.P1]
              [Print "Number of sequences in 'seqs/a.fa': 1"] eq_refl eq_refl)
    as (rs2 & t2 & Hafter & Hall).
  injection Hafter as <- <-.
  unfold get_fastas, read_fastas_from_directory. cbn [isfile listdir Examples.broken_entry].
  unfold print, emit, lift. cbn [bind].
  change ["a.fa"; "bad.fa"; "b.fa"] with (["a.fa"] ++ "bad.fa" :: ["b.fa"]).
  rewrite Hall. reflexivity.
Defined.

(** C9: when the stored model cannot be loaded, no run writes a file or
    calls the model; a run that found records ends with the exception of
    the loader, right after the attempt to load. *)
Theorem model_load_failure_aborts (env : Collaborators) (source output : string)
        (e : exn) :
  joblib_load env (model_source env) = Raise e ->
  files_written (snd (start env source output)) = []
  /\ (forall df, ~ In (Predict df) (snd (start env source output)))
  /\ (forall fastas t0,
         get_fastas env source = (Ok fastas, t0) -> fastas <> [] ->
         start env source output = (Raise e, t0 ++ trace_to_load env fastas)).
Proof.
  intros Hload.
  pose proof (get_fastas_only_prints env source) as P.
  destruct (get_fastas env source) as [[fastas|e0] t0] eqn:Hget; cbn [snd] in P.
  - destruct fastas as [|f fs].
    + rewrite (start_no_records env source output t0 Hget). cbn [snd].
      assert (only_prints (t0 ++ [Print "No fasta records found."])) as P'
          by (apply only_prints_app; [exact P | reflexivity]).
      split; [now apply only_prints_files|]. split.
      * intros df. now apply only_prints_not_In.
      * intros fastas t1 [= <- <-]. congruence.
    + rewrite (start_load_fails env source output (f :: fs) t0 e Hget
                 ltac:(discriminate) Hload).
      cbn [snd]. split; [|split].
      * rewrite files_written_app, (only_prints_files t0 P). reflexivity.
      * intros df Hin. apply in_app_or in Hin. destruct Hin as [Hin|Hin].
        -- revert Hin. now apply only_prints_not_In.
        -- unfold trace_to_load in Hin. simpl in Hin.
           repeat (destruct Hin as [Hin|Hin]; [discriminate|]). exact Hin.
      * intros fastas t1 [= <- <-] _. reflexivity.
  - rewrite (start_no_source env source output e0 t0 Hget). cbn [snd].
    split; [now apply only_prints_files|]. split.
    + intros df. now apply only_prints_not_In.
    + intros fastas t1 [=].
Qed.

(** The file with two records, the model missing. *)
Lemma model_load_failure_aborts_witness :
  fst (start Examples.no_model "in.fa" "out.csv")
  = Raise (Exception "FileNotFoundError" "/opt/phibers/bin/sr_a.joblib")
  /\ files_written (snd (start Examples.no_model "in.fa" "out.csv")) = [].
Proof.
  destruct (model_load_failure_aborts Examples.no_model "in.fa" "out.csv"
              (Exception "FileNotFoundError" "/opt/phibers/bin/sr_a.joblib")
              eq_refl) as (Hfiles & _ & Hrun).
  split; [|exact Hfiles].
  rewrite (Hrun [Examples.P1; Examples.P2]
                [Print "Number of sequences in 'in.fa': 2"] eq_refl
                ltac:(discriminate)).
  reflexivity.
Defined.

Lemma trace_to_load_files (env : Collaborators) (fastas : list fasta) :
  files_written (trace_to_load env fastas) = [].
Proof. reflexivity. Qed.

Lemma trace_of_prediction_files (env : Collaborators) (df : DataFrame)
      (prediction : list Z) :
  files_written (trace_of_prediction env df prediction) = [].
Proof. reflexivity. Qed.

Lemma label_table_lines (ids : list string) (prediction : list Z) :
  List.length prediction = List.length ids ->
  List.length (lines (label_table "Protein ID" "prediction" ids prediction))
  = List.length ids
  /\ map (hd "") (lines (label_table "Protein ID" "prediction" ids prediction))
     = ids
  /\ map (fun l => nth 1 l "")
         (lines (label_table "Protein ID" "prediction" ids prediction))
     = map str_of_Z prediction.
Proof.
  unfold label_table. cbn [lines]. revert prediction.
  induction ids as [|i ids IH]; intros [|v prediction] L; simpl in L;
    try discriminate; [repeat split|].
  injection L as L. destruct (IH prediction L) as (H1 & H2 & H3).
  cbn [combine map List.length hd nth fst snd].
  rewrite H1, H2, H3. repeat split.
Qed.

(** C7, amended: a run that finds at least one record, loads the model,
    gets one label per row of the frame and can write to the output path ends
    without an exception and writes exactly one file, to the output path: a
    comma-separated table whose header is "Protein ID" followed by
    "prediction" and which has one line per row of the frame, that is per
    distinct identifier: the identifier and then the label of that row, in
    the order in which the identifiers are first met in what the source
    yields (one line per record, in the order of the records, when no
    identifier is repeated).  And a file is written only by such a run. *)
Theorem output_table (env : Collaborators) (source output : string) :
  (forall fastas t0 model prediction,
      get_fastas env source = (Ok fastas, t0) ->
      fastas <> [] ->
      joblib_load env (model_source env) = Ok model ->
      predict model (feature_matrix (string_two_mers tt) fastas) = Ok prediction ->
      List.length prediction
      = List.length (rows (feature_matrix (string_two_mers tt) fastas)) ->
      write_error env output = None ->
      exists table,
        fst (start env source output) = Ok tt
        /\ files_written (snd (start env source output)) = [(output, table)]
        /\ sep table = ","
        /\ header table = ["Protein ID"; "prediction"]
        /\ List.length (lines table)
           = List.length (rows (feature_matrix (string_two_mers tt) fastas))
        /\ map (hd "") (lines table)
           = index (feature_matrix (string_two_mers tt) fastas)
        /\ map (hd "") (lines table) = first_occurrences (map id fastas)
        /\ map (fun l => nth 1 l "") (lines table) = map str_of_Z prediction
        /\ (NoDup (map id fastas) -> map (hd "") (lines table) = map id fastas))
  /\ (forall path table,
         In (path, table) (files_written (snd (start env source output))) ->
         exists fastas t0 model prediction,
           get_fastas env source = (Ok fastas, t0)
           /\ fastas <> []
           /\ joblib_load env (model_source env) = Ok model
           /\ predict model (feature_matrix (string_two_mers tt) fastas)
              = Ok prediction
           /\ List.length prediction
              = List.length (rows (feature_matrix (string_two_mers tt) fastas))
           /\ write_error env output = None
           /\ path = output).
Proof.
  assert (forall fastas,
             List.length (rows (feature_matrix (string_two_mers tt) fastas))
             = List.length (index (feature_matrix (string_two_mers tt) fastas))
             /\ index (feature_matrix (string_two_mers tt) fastas)
                = first_occurrences (map id fastas)) as Hshape.
  { intros fastas.
    rewrite (rows_feature_matrix _ _ string_two_mers_not_nil), length_map.
    rewrite (feature_matrix_eq _ _ string_two_mers_not_nil). now split. }
  pose proof (get_fastas_only_prints env source) as P.
  split.
  - intros fastas t0 model prediction Hget Hne Hload Hpred Hlen Hw.
    rewrite Hget in P. cbn [snd] in P.
    destruct (Hshape fastas) as [Hrows Hidx]. rewrite Hrows in Hlen |- *.
    rewrite (start_written env source output fastas t0 model prediction
               Hget Hne Hload Hpred Hlen Hw).
    cbn [fst snd].
    rewrite !files_written_app, (only_prints_files t0 P), trace_to_load_files,
      trace_of_prediction_files.
    cbn [files_written flat_map app].
    rewrite Hidx in Hlen |- *.
    destruct (label_table_lines (first_occurrences (map id fastas)) prediction Hlen)
      as (L1 & L2 & L3).
    eexists. split; [reflexivity|]. split; [reflexivity|].
    split; [reflexivity|]. split; [reflexivity|].
    split; [exact L1|]. split; [exact L2|]. split; [exact L2|].
    split; [exact L3|].
    intros ND. rewrite L2. now apply first_occurrences_id.
  - intros path table Hin.
    destruct (get_fastas env source) as [[fastas|e0] t0] eqn:Hget; cbn [snd] in P.
    2:{ rewrite (start_no_source env source output e0 t0 Hget) in Hin.
        cbn [snd] in Hin. rewrite (only_prints_files t0 P) in Hin. destruct Hin. }
    destruct fastas as [|f fs].
    { rewrite (start_no_records env source output t0 Hget) in Hin.
      cbn [snd] in Hin. rewrite files_written_app, (only_prints_files t0 P) in Hin.
      destruct Hin. }
    assert (f :: fs <> []) as Hne by discriminate.
    remember (f :: fs) as fastas eqn:Hfastas. clear Hfastas.
    destruct (Hshape fastas) as [Hrows Hidx].
    destruct (joblib_load env (model_source env)) as [model|e1] eqn:Hload.
    2:{ rewrite (start_load_fails env source output fastas t0 e1 Hget Hne Hload) in Hin.
        cbn [snd] in Hin.
        rewrite files_written_app, (only_prints_files t0 P), trace_to_load_files in Hin.
        destruct Hin. }
    destruct (predict model (feature_matrix (string_two_mers tt) fastas))
      as [prediction|e2] eqn:Hpred.
    2:{ rewrite (start_predict_fails env source output fastas t0 model e2
                   Hget Hne Hload Hpred) in Hin.
        cbn [snd] in Hin.
        rewrite !files_written_app, (only_prints_files t0 P), trace_to_load_files in Hin.
        destruct Hin. }
    destruct (Nat.eq_dec (List.length prediction)
                (List.length (index (feature_matrix (string_two_mers tt) fastas))))
      as [Hlen|Hlen].
    2:{ rewrite (start_misaligned env source output fastas t0 model prediction
                   Hget Hne Hload Hpred Hlen) in Hin.
        cbn [snd] in Hin.
        rewrite !files_written_app, (only_prints_files t0 P), trace_to_load_files,
          trace_of_prediction_files in Hin.
        destruct Hin. }
    destruct (write_error env output) as [e3|] eqn:Hw.
    { rewrite (start_unwritable env source output fastas t0 model prediction e3
                 Hget Hne Hload Hpred Hlen Hw) in Hin.
      cbn [snd] in Hin.
      rewrite !files_written_app, (only_prints_files t0 P), trace_to_load_files,
        trace_of_prediction_files in Hin.
      destruct Hin. }
    rewrite (start_written env source output fastas t0 model prediction
               Hget Hne Hload Hpred Hlen Hw) in Hin.
    cbn [snd] in Hin.
    rewrite !files_written_app, (only_prints_files t0 P), trace_to_load_files,
      trace_of_prediction_files in Hin.
    cbn [files_written flat_map app] in Hin.
    destruct Hin as [[= <- <-]|[]].
    exists fastas, t0, model, prediction.
    repeat (split; [first [reflexivity | assumption]|]).
    split; [now rewrite Hrows|]. split; reflexivity.
Qed.

(** The run on the file with the two records and the model of all ones
    writes "out.csv", and what is in "out.csv" comes from two records. *)
Lemma output_table_witness :
  (exists table,
      files_written (snd (start Examples.two_records "in.fa" "out.csv"))
      = [("out.csv", table)]
      /\ map (hd "") (lines table) = ["P1"; "P2"]
      /\ map (fun l => nth 1 l "") (lines table) = ["1"; "1"])
  /\ (exists (fastas : list fasta) (prediction : list Z),
         List.length fastas = 2 /\ prediction = [1; 1]%Z).
Proof.
  destruct (output_table Examples.two_records "in.fa" "out.csv") as [Hrun Hfile].
  split.
  - destruct (Hrun [Examples.P1; Examples.P2]
                   [Print "Number of sequences in 'in.fa': 2"]
                   Examples.all_ones [1; 1]%Z)
      as (table & _ & Hfiles & _ & _ & _ & _ & Hids & Hlabels & _);
      try (vm_compute; reflexivity); [discriminate|].
    exists table. split; [exact Hfiles|]. split; [exact Hids | exact Hlabels].
  - destruct (Hfile "out.csv"
                (label_table "Protein ID" "prediction" ["P1"; "P2"] [1; 1]%Z))
      as (fastas & t0 & model & prediction & Hget & _ & Hload & Hpred & _).
    + vm_compute. left. reflexivity.
    + exists fastas, prediction. injection Hget as <- _.
      split; [reflexivity|]. injection Hload as <-.
      revert Hpred. vm_compute. now intros [= <-].
Defined.

(** * Further facts *)

(** ** Counting one pattern *)

Lemma startswith_iff (s sub : string) :
  PyStr.startswith s sub = true <-> exists post, s = (sub ++ post)%string.
Proof.
  unfold PyStr.startswith. revert s.
  induction sub as [|a sub IH]; intros s; simpl.
  - destruct s; split; eauto.
  - destruct s as [|c s].
    + split; [discriminate | intros (post & H); discriminate].
    + simpl. destruct (ascii_dec a c) as [->|N].
      * rewrite IH. split; intros (post & H); exists post.
        -- now rewrite H.
        -- now injection H.
      * split; [discriminate|]. intros (post & H). injection H as H _. congruence.
Qed.

Lemma find_at_None_no_occurrence (sub s : string) (i : nat) :
  PyStr.find_at sub s i = None -> ~ occurs_in sub s.
Proof.
  revert i. induction s as [|c s IH]; intros i.
  - cbn [PyStr.find_at]. destruct (PyStr.startswith "" sub) eqn:E; [discriminate|].
    intros _ (pre & post & H).
    destruct pre; simpl in H; [|discriminate].
    assert (PyStr.startswith "" sub = true) as E'
        by (apply startswith_iff; now exists post).
    congruence.
  - cbn [PyStr.find_at]. destruct (PyStr.startswith (String c s) sub) eqn:E;
      [discriminate|].
    intros Hf (pre & post & H). destruct pre as [|c' pre]; simpl in H.
    + assert (PyStr.startswith (String c s) sub = true) as E'
          by (apply startswith_iff; now exists post).
      congruence.
    + injection H as _ H. apply (IH (S i) Hf). now exists pre, post.
Qed.

Lemma find_at_Some_occurrence (sub s : string) (i j : nat) :
  PyStr.find_at sub s i = Some j -> occurs_in sub s.
Proof.
  revert i. induction s as [|c s IH]; intros i; cbn [PyStr.find_at].
  - destruct (PyStr.startswith "" sub) eqn:E; [|discriminate].
    intros _. apply startswith_iff in E. destruct E as (post & E).
    now exists EmptyString, post.
  - destruct (PyStr.startswith (String c s) sub) eqn:E.
    + intros _. apply startswith_iff in E. destruct E as (post & E).
      now exists EmptyString, post.
    + intros Hf. destruct (IH (S i) Hf) as (pre & post & H).
      exists (String c pre), post. simpl. now rewrite H.
Qed.

(** For a pattern that is not empty, [str.count] is 0 exactly when the
    pattern does not occur. *)
Lemma count_loop_zero_iff (sub s : string) :
  sub <> EmptyString ->
  (PyStr.count_loop sub 0 s = 0 <-> ~ occurs_in sub s)
  /\ (1 <= PyStr.count_loop sub 0 s <-> occurs_in sub s).
Proof.
  intros Hne. pose proof (PyStrFacts.find_at_count_loop sub s 0 Hne) as F.
  destruct (PyStr.find_at sub s 0) as [j|] eqn:E.
  - destruct F as (_ & _ & F). apply find_at_Some_occurrence in E.
    rewrite F. split; split; intros; try lia; try tauto.
  - apply find_at_None_no_occurrence in E. rewrite F.
    split; split; try lia; tauto.
Qed.

Lemma count_nonempty (sequence mer : string) :
  mer <> EmptyString ->
  PyStr.count sequence mer = Z.of_nat (PyStr.count_loop mer 0 sequence).
Proof. destruct mer; [congruence | reflexivity]. Qed.

(** X1: the dictionary of [count_two_mers] has one key per distinct entry of
    [two_mers], in the order in which the entries are first met; an entry of
    [two_mers] is mapped to [sequence.count(mer)], whether it occurs in the
    sequence or not, and nothing else is a key. *)
Theorem count_two_mers_entries (sequence : string) (two_mers : list string) :
  PyDict.keys (count_two_mers sequence two_mers) = first_occurrences two_mers
  /\ NoDup (PyDict.keys (count_two_mers sequence two_mers))
  /\ (NoDup two_mers -> PyDict.keys (count_two_mers sequence two_mers) = two_mers)
  /\ (forall mer, In mer two_mers ->
        PyDict.get (count_two_mers sequence two_mers) mer
        = Some (PyStr.count sequence mer))
  /\ (forall mer, ~ In mer two_mers ->
        PyDict.get (count_two_mers sequence two_mers) mer = None).
Proof.
  rewrite keys_count_two_mers.
  split; [reflexivity|]. split; [apply first_occurrences_NoDup|].
  split; [apply first_occurrences_id|]. split.
  - intros mer. apply get_count_two_mers.
  - intros mer Hn. apply PyDictFacts.get_None. rewrite keys_count_two_mers.
    now rewrite first_occurrences_In.
Qed.

(** A list that names "AC" twice: the key is there once, and "GG", which is
    not named, is no key. *)
Lemma count_two_mers_entries_witness :
  PyDict.get (count_two_mers "ACACAC" ["AC"; "CA"; "AC"]) "CA" = Some 2%Z
  /\ PyDict.get (count_two_mers "ACACAC" ["AC"; "CA"; "AC"]) "GG" = None.
Proof.
  destruct (count_two_mers_entries "ACACAC" ["AC"; "CA"; "AC"])
    as (_ & _ & _ & Hin & Hout).
  split.
  - apply (Hin "CA"). simpl. tauto.
  - apply (Hout "GG"). simpl. intros [H|[H|[H|[]]]]; discriminate.
Defined.

(** X2: for a pattern that is not empty, the count that [count_two_mers]
    stores is 0 exactly when the pattern does not occur in the sequence, and
    at least 1 exactly when it occurs; a symbol the sequence does not have
    gives 0 and no error. *)
Theorem count_two_mers_zero_iff (sequence : string) (two_mers : list string)
        (mer : string) (c : Z) :
  mer <> "" ->
  PyDict.get (count_two_mers sequence two_mers) mer = Some c ->
  (c = 0%Z <-> ~ occurs_in mer sequence)
  /\ ((1 <= c)%Z <-> occurs_in mer sequence).
Proof.
  intros Hne Hc. apply get_count_two_mers_inv in Hc. destruct Hc as [_ ->].
  rewrite (count_nonempty _ _ Hne).
  destruct (count_loop_zero_iff mer sequence Hne) as [H0 H1].
  split.
  - rewrite <- H0. lia.
  - rewrite <- H1. lia.
Qed.

(** "CA" occurs in "ACACAC", so its count is not 0. *)
Lemma count_two_mers_zero_iff_witness :
  (2 = 0 <-> ~ occurs_in "CA" "ACACAC")%Z /\ ((1 <= 2)%Z <-> occurs_in "CA" "ACACAC").
Proof.
  apply (count_two_mers_zero_iff "ACACAC" (string_two_mers tt) "CA" 2%Z).
  - discriminate.
  - vm_compute. reflexivity.
Defined.

(** X3: whatever the length of a pattern in [two_mers], the counted matches
    fit side by side in the sequence: count times length of the pattern is at
    most the length of the sequence; the empty pattern is counted once more
    than the sequence is long. *)
Theorem count_two_mers_fits (sequence : string) (two_mers : list string)
        (mer : string) (c : Z) :
  PyDict.get (count_two_mers sequence two_mers) mer = Some c ->
  (mer <> "" ->
   (0 <= c)%Z
   /\ (c * Z.of_nat (String.length mer) <= Z.of_nat (String.length sequence))%Z)
  /\ (mer = "" -> c = (Z.of_nat (String.length sequence) + 1)%Z).
Proof.
  intros Hc. apply get_count_two_mers_inv in Hc. destruct Hc as [_ ->]. split.
  - intros Hne. rewrite (count_nonempty _ _ Hne).
    pose proof (PyStrFacts.count_loop_fits mer sequence 0 Hne) as F.
    rewrite Nat.sub_0_r in F. split; [lia|].
    rewrite <- Nat2Z.inj_mul. now apply Nat2Z.inj_le.
  - intros ->. reflexivity.
Qed.

(** "ACA" in "ACACACA": counted 2 times, 2 * 3 <= 7. *)
Lemma count_two_mers_fits_witness :
  ("ACA" <> "" ->
   (0 <= 2)%Z
   /\ (2 * Z.of_nat (String.length "ACA") <= Z.of_nat (String.length "ACACACA"))%Z)
  /\ ("ACA" = "" -> 2%Z = (Z.of_nat (String.length "ACACACA") + 1)%Z).
Proof.
  apply (count_two_mers_fits "ACACACA" ["ACA"; ""] "ACA" 2%Z).
  vm_compute. reflexivity.
Defined.

Lemma startswith_dyad (s : string) (a b : ascii) :
  PyStr.startswith s (String a (String b "")) = true
  <-> exists rest, s = String a (String b rest).
Proof. rewrite startswith_iff. reflexivity. Qed.

(** The count of a dyad against the number of all its occurrences. *)
Lemma dyad_count_loop_occurrences (a b : ascii) (n : nat) :
  forall s, String.length s <= n ->
    (Z.of_nat (PyStr.count_loop (String a (String b "")) 0 s)
     <= ScanSpec.overlapping_count (String a (String b "")) s
     <= 2 * Z.of_nat (PyStr.count_loop (String a (String b "")) 0 s))%Z
    /\ (a <> b ->
        Z.of_nat (PyStr.count_loop (String a (String b "")) 0 s)
        = ScanSpec.overlapping_count (String a (String b "")) s).
Proof.
  set (d := String a (String b "")).
  induction n as [|n IH]; intros s L.
  - destruct s; [|simpl in L; lia]. simpl. split; [lia | reflexivity].
  - destruct s as [|c s']; [simpl; split; [lia | reflexivity]|].
    cbn [PyStr.count_loop ScanSpec.overlapping_count].
    destruct (PyStr.startswith (String c s') d) eqn:E.
    + pose proof E as E'. apply startswith_dyad in E'.
      destruct E' as (rest & [= -> ->]).
      cbn [PyStr.count_loop ScanSpec.overlapping_count String.length d Nat.sub].
      simpl in L.
      destruct (IH rest ltac:(lia)) as [Hb He].
      rewrite Nat2Z.inj_succ.
      destruct (PyStr.startswith (String b rest) d) eqn:E2.
      * split; [lia|]. intros Hab. apply startswith_dyad in E2.
        destruct E2 as (r & [= -> _]). congruence.
      * split; [lia|]. intros Hab. specialize (He Hab). lia.
    + simpl in L. destruct (IH s' ltac:(lia)) as [Hb He].
      split; [lia|]. intros Hab. specialize (He Hab). lia.
Qed.

(** X4: the count that [count_two_mers] stores for a dyad is at most the
    number of all occurrences of the dyad, overlapping ones too, and at least
    half of it; for a dyad of two different symbols the two numbers are the
    same, so that only a doubled symbol such as "AA" is counted less often
    than it occurs. *)
Theorem count_two_mers_occurrences (sequence : string) (two_mers : list string)
        (a b : ascii) (c : Z) :
  PyDict.get (count_two_mers sequence two_mers) (String a (String b "")) = Some c ->
  (c <= ScanSpec.overlapping_count (String a (String b "")) sequence <= 2 * c)%Z
  /\ (a <> b -> c = ScanSpec.overlapping_count (String a (String b "")) sequence).
Proof.
  intros Hc. apply get_count_two_mers_inv in Hc. destruct Hc as [_ ->].
  rewrite count_nonempty by discriminate.
  exact (dyad_count_loop_occurrences a b (String.length sequence) sequence (le_n _)).
Qed.

(** "AA" in "AAAAA": counted 2 times, occurring 4 times. *)
Lemma count_two_mers_occurrences_witness :
  (2 <= ScanSpec.overlapping_count "AA" "AAAAA" <= 2 * 2)%Z
  /\ ("A"%char <> "A"%char -> 2%Z = ScanSpec.overlapping_count "AA" "AAAAA").
Proof.
  apply (count_two_mers_occurrences "AAAAA" (string_two_mers tt) "A" "A" 2%Z).
  vm_compute. reflexivity.
Defined.

(** ** The frame *)

Lemma add_labels_length (l seen : list string) :
  List.length (fold_left add_label l seen) <= List.length seen + List.length l.
Proof.
  revert seen. induction l as [|x l IH]; intros seen; simpl; [lia|].
  specialize (IH (add_label seen x)). unfold add_label in *.
  destruct (existsb (String.eqb x) seen); [lia|].
  rewrite length_app in IH. simpl in IH. lia.
Qed.

Lemma add_labels_full_length (l seen : list string) :
  NoDup seen ->
  List.length (fold_left add_label l seen) = List.length seen + List.length l ->
  NoDup (seen ++ l).
Proof.
  revert seen. induction l as [|x l IH]; intros seen ND L; simpl in L.
  - now rewrite app_nil_r.
  - destruct (in_dec string_dec x seen) as [Hin|Hout].
    + rewrite (add_label_In seen x Hin) in L.
      pose proof (add_labels_length l seen). lia.
    + rewrite (add_label_fresh seen x Hout) in L.
      change (seen ++ x :: l) with (seen ++ [x] ++ l). rewrite app_assoc.
      apply IH.
      * apply NoDup_app; [assumption | repeat constructor; simpl; tauto |].
        intros y Hy [->|[]]. contradiction.
      * rewrite L, length_app. simpl. lia.
Qed.

Lemma first_occurrences_length (ids : list string) :
  List.length (first_occurrences ids) <= List.length ids
  /\ (List.length (first_occurrences ids) = List.length ids <-> NoDup ids).
Proof.
  split; [apply (add_labels_length ids [])|]. split.
  - intros L. apply (add_labels_full_length ids [] (NoDup_nil _) L).
  - intros ND. now rewrite first_occurrences_id.
Qed.

Lemma unique_identifier (fastas : list fasta) (f g : fasta) :
  NoDup (map id fastas) -> In f fastas -> In g fastas -> id f = id g -> f = g.
Proof.
  induction fastas as [|h fastas IH]; simpl; [tauto|].
  intros ND Hf Hg E. inversion ND as [|? ? Hh ND']; subst.
  destruct Hf as [->|Hf], Hg as [->|Hg]; auto.
  - exfalso. apply Hh. rewrite E. now apply in_map.
  - exfalso. apply Hh. rewrite <- E. now apply in_map.
Qed.

Lemma seq_of_last_unique (fastas : list fasta) (f : fasta) :
  NoDup (map id fastas) -> In f fastas -> seq_of_last fastas (id f) = seq f.
Proof.
  intros ND Hf. unfold seq_of_last.
  destruct (last_with_id_In fastas (id f) (in_map id _ _ Hf)) as (g & -> & Hg & E).
  now rewrite (unique_identifier fastas g f ND Hg Hf E).
Qed.

(** X5: for a list of patterns that is not empty and at least one record,
    the frame of [construct_dataframe] is a full table: as many rows as there
    are distinct identifiers, as many columns as there are distinct patterns
    (400 for the feature space), every row with one cell per column and no
    cell missing. *)
Theorem construct_dataframe_full_table (two_mers : list string)
        (fastas : list fasta) (df : DataFrame) (t : list event) :
  two_mers <> [] -> fastas <> [] ->
  construct_dataframe two_mers fastas = (Ok df, t) ->
  shape df = (List.length (first_occurrences (map id fastas)),
              List.length (first_occurrences two_mers))
  /\ List.length (data df) = fst (shape df)
  /\ Forall (fun row => List.length row = snd (shape df)
                        /\ Forall (fun cell => cell <> None) row) (data df)
  /\ (two_mers = string_two_mers tt -> snd (shape df) = 400).
Proof.
  intros Htm Hf E. rewrite construct_dataframe_eq in E. injection E as <- _.
  rewrite (feature_matrix_eq two_mers fastas Htm).
  destruct fastas as [|f fastas']; [congruence|].
  unfold shape. cbn [columns index data fst snd].
  split; [reflexivity|]. split; [apply length_map|]. split.
  - apply Forall_forall. intros row Hrow. apply in_map_iff in Hrow.
    destruct Hrow as (i & <- & _). split; [apply length_map|].
    apply Forall_forall. intros cell Hcell. apply in_map_iff in Hcell.
    destruct Hcell as (c & <- & _). discriminate.
  - intros ->. now rewrite string_two_mers_first_occurrences.
Qed.

(** The frame of the two example records has 2 rows and 400 columns. *)
Lemma construct_dataframe_full_table_witness :
  shape (feature_matrix (string_two_mers tt) [Examples.P1; Examples.P2]) = (2, 400).
Proof.
  destruct (construct_dataframe_full_table (string_two_mers tt)
              [Examples.P1; Examples.P2] _ _
              string_two_mers_not_nil ltac:(discriminate)
              (construct_dataframe_eq _ _)) as (H & _).
  rewrite H. vm_compute. reflexivity.
Defined.

(** X6: when no identifier is repeated and no pattern is repeated, the frame
    has one row per record, in the order of the records: the identifier of
    the record, then the counts of its own sequence under the patterns in
    their order; with no pattern at all the rows are there, without cells. *)
Theorem construct_dataframe_rows (two_mers : list string) (fastas : list fasta)
        (df : DataFrame) (t : list event) :
  NoDup two_mers -> NoDup (map id fastas) ->
  construct_dataframe two_mers fastas = (Ok df, t) ->
  rows df = map (fun f => (id f, feature_vector two_mers (seq f))) fastas
  /\ index df = map id fastas.
Proof.
  intros NDtm NDid E. rewrite construct_dataframe_eq in E. injection E as <- _.
  split.
  - rewrite (rows_feature_matrix_any two_mers fastas).
    rewrite (first_occurrences_id _ NDtm), (first_occurrences_id _ NDid).
    rewrite map_map. apply map_ext_in. intros f Hf.
    now rewrite (seq_of_last_unique fastas f NDid Hf).
  - rewrite (feature_matrix_eq_any two_mers fastas). cbn [index].
    now apply first_occurrences_id.
Qed.

(** Two records and two patterns. *)
Lemma construct_dataframe_rows_witness :
  rows (feature_matrix ["AC"; "GG"] [Examples.P1; Examples.P2])
  = [("P1", [("AC", Some 3%Z); ("GG", Some 0%Z)]);
     ("P2", [("AC", Some 0%Z); ("GG", Some 3%Z)])].
Proof.
  refine (proj1 (construct_dataframe_rows ["AC"; "GG"] [Examples.P1; Examples.P2]
                   _ _ _ _ (construct_dataframe_eq _ _))).
  - repeat constructor; simpl; intuition discriminate.
  - repeat constructor; simpl; intuition discriminate.
Defined.

(** X7: the frame never has more rows than there are records, and it has as
    many rows as records exactly when no identifier is repeated, whatever
    the patterns are. *)
Theorem construct_dataframe_row_count (two_mers : list string)
        (fastas : list fasta) (df : DataFrame) (t : list event) :
  construct_dataframe two_mers fastas = (Ok df, t) ->
  List.length (rows df) <= List.length fastas
  /\ (List.length (rows df) = List.length fastas <-> NoDup (map id fastas)).
Proof.
  intros E. rewrite construct_dataframe_eq in E. injection E as <- _.
  rewrite (rows_feature_matrix_any two_mers fastas), length_map.
  rewrite <- (length_map id fastas).
  apply first_occurrences_length.
Qed.

(** Two records with the same identifier give one row. *)
Lemma construct_dataframe_row_count_witness :
  List.length (rows (feature_matrix ["AC"; "GG"] [Examples.P1; Examples.P1_again]))
  <= 2
  /\ (List.length (rows (feature_matrix ["AC"; "GG"] [Examples.P1; Examples.P1_again]))
      = 2 <-> NoDup ["P1"; "P1"]).
Proof.
  apply (construct_dataframe_row_count ["AC"; "GG"]
           [Examples.P1; Examples.P1_again] _ _ (construct_dataframe_eq _ _)).
Defined.

Lemma increasing_pairs (l : list string) :
  increasing l = true ->
  forall i j a b, i < j -> nth_error l i = Some a -> nth_error l j = Some b ->
                  String.ltb a b = true.
Proof.
  induction l as [|x l IH]; intros H i j a b Hij Ha Hb.
  - destruct i; discriminate.
  - simpl in H. apply andb_true_iff in H. destruct H as [Hx Hl].
    destruct j as [|j]; [lia|]. simpl in Hb.
    destruct i as [|i]; simpl in Ha.
    + injection Ha as <-. rewrite forallb_forall in Hx. apply Hx.
      eapply nth_error_In. exact Hb.
    + apply (IH Hl i j); [lia | assumption | assumption].
Qed.

(** X8: with at least one record, the column labels of the frame built over
    [string_two_mers()] are in strictly increasing alphabetical order, as
    the docstring of [construct_dataframe] says. *)
Theorem construct_dataframe_alphabetical (fastas : list fasta) (df : DataFrame)
        (t : list event) (i j : nat) (a b : string) :
  fastas <> [] ->
  construct_dataframe (string_two_mers tt) fastas = (Ok df, t) ->
  i < j -> nth_error (columns df) i = Some a -> nth_error (columns df) j = Some b ->
  String.ltb a b = true.
Proof.
  intros Hf E. rewrite construct_dataframe_eq in E. injection E as <- _.
  rewrite (feature_matrix_eq _ _ string_two_mers_not_nil).
  destruct fastas as [|f fastas']; [congruence|]. cbn [columns].
  rewrite string_two_mers_first_occurrences.
  apply increasing_pairs. vm_compute. reflexivity.
Qed.

(** Columns 19 and 20 of the frame of the two example records: "AY", "CA". *)
Lemma construct_dataframe_alphabetical_witness : String.ltb "AY" "CA" = true.
Proof.
  apply (construct_dataframe_alphabetical [Examples.P1; Examples.P2] _ _ 19 20
           "AY" "CA" ltac:(discriminate) (construct_dataframe_eq _ _));
    [lia | vm_compute; reflexivity | vm_compute; reflexivity].
Defined.

(** ** Reading the source *)

Lemma read_entries_records (env : Collaborators) (directory : string)
      (filenames : list string) :
  forall fastas, exists t,
    read_entries env directory filenames fastas
    = (Ok (fastas ++ flat_map (fun filename =>
                                 records_of env (path_join directory filename))
                              filenames), t)
    /\ List.length t = List.length filenames
    /\ only_prints t.
Proof.
  induction filenames as [|filename rest IH]; intros fastas.
  - exists []. cbn [read_entries flat_map]. rewrite app_nil_r. now repeat split.
  - cbn [read_entries flat_map]. rewrite read_fastas_from_file_eq.
    unfold records_of at 1.
    destruct (SeqIO_parse env (path_join directory filename)) as [records [e|]];
      cbn [bind].
    + destruct (IH (fastas ++ [])) as (t & -> & L & P).
      eexists. split; [|split].
      * rewrite app_nil_r. reflexivity.
      * simpl. now rewrite L.
      * exact P.
    + destruct (IH (fastas ++ records)) as (t & -> & L & P).
      eexists. split; [|split].
      * rewrite <- app_assoc. reflexivity.
      * simpl. now rewrite L.
      * exact P.
Qed.

(** X9: for a source that is no file and whose entries can be listed,
    [get_fastas] returns, without an exception, the records of the entries
    one after the other in the order of the listing, an entry on which the
    parser fails adding none; it prints one line for the directory and one
    line for each entry. *)
Theorem get_fastas_directory (env : Collaborators) (source : string)
        (filenames : list string) :
  isfile env source = false ->
  listdir env source = Ok filenames ->
  exists t,
    get_fastas env source
    = (Ok (flat_map (fun filename => records_of env (path_join source filename))
                    filenames),
       Print ("Reading from directory '" ++ source ++ "'.") :: t)
    /\ List.length t = List.length filenames
    /\ only_prints t.
Proof.
  intros Hf Hl. unfold get_fastas, read_fastas_from_directory. rewrite Hf, Hl.
  destruct (read_entries_records env source filenames []) as (t & E & L & P).
  exists t. unfold print, emit, lift. cbn [bind app]. rewrite E.
  now repeat split.
Qed.

(** The directory with the broken second entry. *)
Lemma get_fastas_directory_witness :
  exists t,
    get_fastas Examples.broken_entry "seqs"
    = (Ok [Examples.P1; Examples.P2], Print "Reading from directory 'seqs'." :: t)
    /\ List.length t = 3
    /\ only_prints t.
Proof.
  exact (get_fastas_directory Examples.broken_entry "seqs"
           ["a.fa"; "bad.fa"; "b.fa"] eq_refl eq_refl).
Defined.

(** X10: [get_fastas] ends with an exception only for a source that is no
    file and cannot be listed, and then with the exception of [os.listdir];
    [start] then ends with that exception right after the line about the
    directory: the model is not loaded and nothing is written. *)
Theorem get_fastas_raises (env : Collaborators) (source output : string)
        (e : exn) :
  (fst (get_fastas env source) = Raise e
   <-> isfile env source = false /\ listdir env source = Raise e)
  /\ (isfile env source = false -> listdir env source = Raise e ->
      start env source output
      = (Raise e, [Print ("Reading from directory '" ++ source ++ "'.")])).
Proof.
  assert (isfile env source = false -> listdir env source = Raise e ->
          get_fastas env source
          = (Raise e, [Print ("Reading from directory '" ++ source ++ "'.")])) as H.
  { intros Hf Hl. unfold get_fastas, read_fastas_from_directory.
    rewrite Hf, Hl. reflexivity. }
  split.
  - split.
    + unfold get_fastas. destruct (isfile env source) eqn:Hf.
      * destruct (read_fastas_from_file_ok env source) as (rs & t & -> & _).
        discriminate.
      * unfold read_fastas_from_directory, print, emit, lift. cbn [bind].
        destruct (listdir env source) as [filenames|e'] eqn:Hl.
        -- destruct (read_entries_ok env source filenames []) as (rs & t & -> & _).
           discriminate.
        -- cbn [fst]. intros [= ->]. now split.
    + intros [Hf Hl]. now rewrite (H Hf Hl).
  - intros Hf Hl. apply start_no_source. now apply H.
Qed.

(** A source that does not exist. *)
Lemma get_fastas_raises_witness :
  start MoreExamples.missing_source "nowhere" "out.csv"
  = (Raise (Exception "FileNotFoundError" "nowhere"),
     [Print "Reading from directory 'nowhere'."]).
Proof.
  exact (proj2 (get_fastas_raises MoreExamples.missing_source "nowhere" "out.csv"
                  (Exception "FileNotFoundError" "nowhere")) eq_refl eq_refl).
Defined.

(** ** Runs: what happens, how often and in which order *)

Lemma count_events_app (p : event -> bool) (t t' : list event) :
  count_events p (t ++ t') = count_events p t + count_events p t'.
Proof. unfold count_events. now rewrite filter_app, length_app. Qed.

Lemma only_prints_count (p : event -> bool) (t : list event) :
  (forall msg, p (Print msg) = false) -> only_prints t -> count_events p t = 0.
Proof.
  intros Hp. unfold only_prints, count_events.
  induction t as [|e t IH]; [reflexivity|].
  simpl. destruct e; simpl; try discriminate. rewrite Hp. exact IH.
Qed.

Lemma start_run_shape (env : Collaborators) (source output : string) :
  run_shape env source output (fst (start env source output))
            (snd (start env source output)).
Proof.
  destruct (get_fastas env source) as [[fastas|e0] t0] eqn:Hget.
  2:{ rewrite (start_no_source env source output e0 t0 Hget).
      now apply NoSource. }
  destruct fastas as [|f fs].
  { rewrite (start_no_records env source output t0 Hget). now apply NoRecords. }
  assert (f :: fs <> []) as Hne by discriminate.
  remember (f :: fs) as fastas eqn:Hfastas. clear Hfastas.
  destruct (joblib_load env (model_source env)) as [model|e1] eqn:Hload.
  2:{ rewrite (start_load_fails env source output fastas t0 e1 Hget Hne Hload).
      now apply NoModel. }
  destruct (predict model (feature_matrix (string_two_mers tt) fastas))
    as [prediction|e2] eqn:Hpred.
  2:{ rewrite (start_predict_fails env source output fastas t0 model e2
                 Hget Hne Hload Hpred).
      now apply (NoLabels env source output fastas t0 model). }
  destruct (Nat.eq_dec (List.length prediction)
              (List.length (index (feature_matrix (string_two_mers tt) fastas))))
    as [Hlen|Hlen].
  2:{ rewrite (start_misaligned env source output fastas t0 model prediction
                 Hget Hne Hload Hpred Hlen).
      now apply (Misaligned env source output fastas t0 model). }
  destruct (write_error env output) as [e3|] eqn:Hw.
  - rewrite (start_unwritable env source output fastas t0 model prediction e3
               Hget Hne Hload Hpred Hlen Hw).
    now apply (Unwritable env source output fastas t0 model).
  - rewrite (start_written env source output fastas t0 model prediction
               Hget Hne Hload Hpred Hlen Hw).
    now apply (Written env source output fastas t0 model).
Qed.

Lemma get_fastas_prints_of (env : Collaborators) (source : string)
      (r : res (list fasta)) (t0 : list event) :
  get_fastas env source = (r, t0) -> only_prints t0.
Proof.
  intros H. pose proof (get_fastas_only_prints env source) as P.
  now rewrite H in P.
Qed.

Lemma run_shape_counts (env : Collaborators) (source output : string)
      (r : res unit) (t : list event) :
  run_shape env source output r t ->
  (count_events is_load t = 0 /\ count_events is_predict t = 0
   /\ count_events is_write t = 0 /\ files_written t = [])
  \/ (count_events is_load t = 1 /\ count_events is_predict t = 0
      /\ count_events is_write t = 0 /\ files_written t = []
      /\ exists e, r = Raise e)
  \/ (count_events is_load t = 1 /\ count_events is_predict t = 1
      /\ count_events is_write t = 0 /\ files_written t = []
      /\ exists e, r = Raise e)
  \/ (count_events is_load t = 1 /\ count_events is_predict t = 1
      /\ count_events is_write t = 1 /\ r = Ok tt).
Proof.
  intros S.
  destruct S as [e t0 Hget | t0 Hget | fastas t0 e Hget | fastas t0 model e Hget
                 | fastas t0 model prediction Hget
                 | fastas t0 model prediction e Hget
                 | fastas t0 model prediction Hget];
    pose proof (get_fastas_prints_of env source _ t0 Hget) as P;
    pose proof (only_prints_count is_load t0 (fun _ => eq_refl) P) as Pl;
    pose proof (only_prints_count is_predict t0 (fun _ => eq_refl) P) as Pp;
    pose proof (only_prints_count is_write t0 (fun _ => eq_refl) P) as Pw;
    pose proof (only_prints_files t0 P) as Pf;
    rewrite ?count_events_app, ?files_written_app, ?Pl, ?Pp, ?Pw, ?Pf.
  - left. now repeat split.
  - left. now repeat split.
  - right. left. repeat split; try reflexivity. now exists e.
  - right. right. left. repeat split; try reflexivity. now exists e.
  - right. right. left. repeat split; try reflexivity. eexists. reflexivity.
  - right. right. left. repeat split; try reflexivity. now exists e.
  - right. right. right. repeat split; reflexivity.
Qed.

(** X12: the model is only ever called with the frame of the records that
    the source yields, of which there is at least one: its columns are the
    feature space in its order, its rows the distinct identifiers, and the
    model has been loaded from [sr_a.joblib] beside the script before. *)
Theorem predict_gets_feature_matrix (env : Collaborators) (source output : string)
        (df : DataFrame) :
  In (Predict df) (snd (start env source output)) ->
  exists fastas t0,
    get_fastas env source = (Ok fastas, t0)
    /\ fastas <> []
    /\ df = feature_matrix (string_two_mers tt) fastas
    /\ columns df = string_two_mers tt
    /\ index df = first_occurrences (map id fastas)
    /\ index df <> []
    /\ In (Load (script_dir env ++ "/sr_a.joblib")) (snd (start env source output)).
Proof.
  assert (forall fastas t0 tail,
             get_fastas env source = (Ok fastas, t0) -> fastas <> [] ->
             In (Predict df) (t0 ++ trace_to_load env fastas ++ tail) ->
             (In (Predict df) tail ->
              df = feature_matrix (string_two_mers tt) fastas) ->
             exists fastas' t0',
               get_fastas env source = (Ok fastas', t0')
               /\ fastas' <> []
               /\ df = feature_matrix (string_two_mers tt) fastas'
               /\ columns df = string_two_mers tt
               /\ index df = first_occurrences (map id fastas')
               /\ index df <> []
               /\ In (Load (script_dir env ++ "/sr_a.joblib"))
                     (t0 ++ trace_to_load env fastas ++ tail)) as Hmain.
  { intros fastas t0 tail Hget Hne Hin Htail.
    pose proof (get_fastas_prints_of env source _ t0 Hget) as P.
    apply in_app_or in Hin. destruct Hin as [Hin|Hin];
      [exfalso; revert Hin; now apply only_prints_not_In|].
    apply in_app_or in Hin. destruct Hin as [Hin|Hin].
    { exfalso. unfold trace_to_load in Hin. simpl in Hin.
      repeat (destruct Hin as [Hin|Hin]; [discriminate|]). exact Hin. }
    specialize (Htail Hin). subst df.
    exists fastas, t0.
    rewrite (feature_matrix_eq _ _ string_two_mers_not_nil).
    destruct fastas as [|f fs]; [congruence|]. cbn [columns index].
    split; [assumption|]. split; [assumption|]. split; [reflexivity|].
    split; [apply string_two_mers_first_occurrences|].
    split; [reflexivity|]. split.
    - intros E. apply first_occurrences_nil in E. discriminate.
    - apply in_or_app. right. apply in_or_app. left.
      unfold trace_to_load, model_source. simpl. tauto. }
  intros Hin.
  pose proof (start_run_shape env source output) as S.
  remember (fst (start env source output)) as r eqn:Hr. clear Hr.
  remember (snd (start env source output)) as t eqn:Ht. clear Ht.
  destruct S as [e t0 Hget | t0 Hget | fastas t0 e Hget Hne
                 | fastas t0 model e Hget Hne
                 | fastas t0 model prediction Hget Hne
                 | fastas t0 model prediction e Hget Hne
                 | fastas t0 model prediction Hget Hne].
  - exfalso. revert Hin. apply only_prints_not_In; [|reflexivity].
    exact (get_fastas_prints_of env source _ t0 Hget).
  - exfalso. revert Hin. apply only_prints_not_In; [|reflexivity].
    apply only_prints_app; [|reflexivity].
    exact (get_fastas_prints_of env source _ t0 Hget).
  - rewrite <- (app_nil_r (trace_to_load env fastas)) in Hin |- *.
    apply (Hmain fastas t0 [] Hget Hne Hin). intros [].
  - apply (Hmain fastas t0 _ Hget Hne Hin).
    intros [[= <-]|[]]. reflexivity.
  - apply (Hmain fastas t0 _ Hget Hne Hin).
    unfold trace_of_prediction. simpl.
    intros [[= <-]|Hx]; [reflexivity|].
    repeat (destruct Hx as [Hx|Hx]; [discriminate|]). destruct Hx.
  - apply (Hmain fastas t0 _ Hget Hne Hin).
    unfold trace_of_prediction. simpl.
    intros [[= <-]|Hx]; [reflexivity|].
    repeat (destruct Hx as [Hx|Hx]; [discriminate|]). destruct Hx.
  - apply (Hmain fastas t0 _ Hget Hne Hin).
    unfold trace_of_prediction. simpl.
    intros [[= <-]|Hx]; [reflexivity|].
    repeat (destruct Hx as [Hx|Hx]; [discriminate|]). destruct Hx.
Qed.

(** The run on the file with the two records calls the model with their
    frame. *)
Lemma predict_gets_feature_matrix_witness :
  exists fastas,
    feature_matrix (string_two_mers tt) [Examples.P1; Examples.P2]
    = feature_matrix (string_two_mers tt) fastas
    /\ fastas <> [].
Proof.
  destruct (predict_gets_feature_matrix Examples.two_records "in.fa" "out.csv"
              (feature_matrix (string_two_mers tt) [Examples.P1; Examples.P2]))
    as (fastas & t0 & _ & Hne & Hdf & _).
  - rewrite (start_written Examples.two_records "in.fa" "out.csv"
               [Examples.P1; Examples.P2]
               [Print "Number of sequences in 'in.fa': 2"]
               Examples.all_ones [1; 1]%Z eq_refl ltac:(discriminate) eq_refl);
      [| vm_compute; reflexivity | vm_compute; reflexivity | reflexivity].
    cbn [snd]. apply in_or_app. right. apply in_or_app. right.
    apply in_or_app. left. left. reflexivity.
  - exists fastas. now split.
Defined.

(** X13: [start] does not check what the model returns: when the number of
    labels differs from the number of rows of the frame, the run gets past
    the call of the model, the printing of the labels and of the count of
    the non-zero ones, and then ends with the [ValueError] of the assignment
    of the column; no file is written. *)
Theorem misaligned_labels_abort (env : Collaborators) (source output : string)
        (fastas : list fasta) (t0 : list event) (model : Model)
        (prediction : list Z) :
  get_fastas env source = (Ok fastas, t0) -> fastas <> [] ->
  joblib_load env (model_source env) = Ok model ->
  predict model (feature_matrix (string_two_mers tt) fastas) = Ok prediction ->
  List.length prediction <> List.length (first_occurrences (map id fastas)) ->
  fst (start env source output) = Raise (Exception "ValueError" "")
  /\ In (Predict (feature_matrix (string_two_mers tt) fastas))
        (snd (start env source output))
  /\ In (Print (repr_array env prediction)) (snd (start env source output))
  /\ In (Print ("Number of positively predicted: "
                ++ PyStr.of_nat (count_nonzero prediction)))
        (snd (start env source output))
  /\ files_written (snd (start env source output)) = [].
Proof.
  intros Hget Hne Hload Hpred Hlen.
  assert (index (feature_matrix (string_two_mers tt) fastas)
          = first_occurrences (map id fastas)) as Hidx
      by (rewrite (feature_matrix_eq _ _ string_two_mers_not_nil); reflexivity).
  rewrite <- Hidx in Hlen.
  rewrite (start_misaligned env source output fastas t0 model prediction
             Hget Hne Hload Hpred Hlen).
  cbn [fst snd]. split; [reflexivity|].
  split; [|split; [|split]].
  - apply in_or_app. right. apply in_or_app. right. left. reflexivity.
  - apply in_or_app. right. apply in_or_app. right.
    unfold trace_of_prediction. simpl. tauto.
  - apply in_or_app. right. apply in_or_app. right.
    unfold trace_of_prediction. simpl. tauto.
  - rewrite !files_written_app,
      (only_prints_files t0 (get_fastas_prints_of env source _ t0 Hget)).
    reflexivity.
Qed.

(** Two records, one label. *)
Lemma misaligned_labels_abort_witness :
  fst (start MoreExamples.short_of_labels "in.fa" "out.csv")
  = Raise (Exception "ValueError" "")
  /\ files_written (snd (start MoreExamples.short_of_labels "in.fa" "out.csv")) = [].
Proof.
  destruct (misaligned_labels_abort MoreExamples.short_of_labels "in.fa" "out.csv"
              [Examples.P1; Examples.P2]
              [Print "Number of sequences in 'in.fa': 2"]
              MoreExamples.one_label [1%Z])
    as (Hr & _ & _ & _ & Hf);
    [ vm_compute; reflexivity | discriminate | vm_compute; reflexivity
    | vm_compute; reflexivity | vm_compute; lia | now split ].
Defined.

(** X14: when the output path cannot be written, the run ends with the
    exception of [to_csv], after the model was called and its labels were
    printed; the labels are in no file. *)
Theorem unwritable_output_abort (env : Collaborators) (source output : string)
        (fastas : list fasta) (t0 : list event) (model : Model)
        (prediction : list Z) (e : exn) :
  get_fastas env source = (Ok fastas, t0) -> fastas <> [] ->
  joblib_load env (model_source env) = Ok model ->
  predict model (feature_matrix (string_two_mers tt) fastas) = Ok prediction ->
  List.length prediction = List.length (first_occurrences (map id fastas)) ->
  write_error env output = Some e ->
  fst (start env source output) = Raise e
  /\ In (Predict (feature_matrix (string_two_mers tt) fastas))
        (snd (start env source output))
  /\ In (Print (repr_array env prediction)) (snd (start env source output))
  /\ files_written (snd (start env source output)) = [].
Proof.
  intros Hget Hne Hload Hpred Hlen Hw.
  assert (index (feature_matrix (string_two_mers tt) fastas)
          = first_occurrences (map id fastas)) as Hidx
      by (rewrite (feature_matrix_eq _ _ string_two_mers_not_nil); reflexivity).
  rewrite <- Hidx in Hlen.
  rewrite (start_unwritable env source output fastas t0 model prediction e
             Hget Hne Hload Hpred Hlen Hw).
  cbn [fst snd]. split; [reflexivity|].
  split; [|split].
  - apply in_or_app. right. apply in_or_app. right. left. reflexivity.
  - apply in_or_app. right. apply in_or_app. right.
    unfold trace_of_prediction. simpl. tauto.
  - rewrite !files_written_app,
      (only_prints_files t0 (get_fastas_prints_of env source _ t0 Hget)).
    reflexivity.
Qed.

(** Two records, the output path read-only. *)
Lemma unwritable_output_abort_witness :
  fst (start MoreExamples.read_only_output "in.fa" "/out.csv")
  = Raise (Exception "PermissionError" "/out.csv")
  /\ files_written (snd (start MoreExamples.read_only_output "in.fa" "/out.csv")) = [].
Proof.
  destruct (unwritable_output_abort MoreExamples.read_only_output "in.fa" "/out.csv"
              [Examples.P1; Examples.P2]
              [Print "Number of sequences in 'in.fa': 2"]
              Examples.all_ones [1; 1]%Z (Exception "PermissionError" "/out.csv"))
    as (Hr & _ & _ & Hf);
    [ vm_compute; reflexivity | discriminate | vm_compute; reflexivity
    | vm_compute; reflexivity | vm_compute; reflexivity | vm_compute; reflexivity
    | now split ].
Defined.

(** ** The sum of a feature vector *)

Lemma append_same_length (k k' p p' : string) :
  String.length k = String.length k' ->
  (k ++ p)%string = (k' ++ p')%string -> k = k'.
Proof.
  revert k'. induction k as [|a k IH]; intros [|a' k'] L E; simpl in *;
    try discriminate; [reflexivity|].
  injection E as -> E. injection L as L. now rewrite (IH k' L E).
Qed.

Lemma startswith_same_length (t k k' : string) :
  PyStr.startswith t k = true -> PyStr.startswith t k' = true ->
  String.length k = String.length k' -> k = k'.
Proof.
  intros H H' L. apply startswith_iff in H, H'.
  destruct H as (p & ->), H' as (p' & E).
  now apply (append_same_length k k' p p').
Qed.

Lemma starts_none (t k : string) (ks : list string) :
  PyStr.startswith t k = true -> ~ In k ks ->
  (forall k', In k' ks -> String.length k' = String.length k) ->
  fold_right Z.add 0%Z (map (starts t) ks) = 0%Z.
Proof.
  intros E. induction ks as [|k' ks IH]; intros Hk L; [reflexivity|]. simpl.
  rewrite IH.
  - unfold starts. destruct (PyStr.startswith t k') eqn:E'; [|reflexivity].
    exfalso. apply Hk. left.
    apply (startswith_same_length t k' k E' E). apply L. now left.
  - intros H. apply Hk. now right.
  - intros k0 H. apply L. now right.
Qed.

(** Among distinct patterns of length 2 at most one begins a text. *)
Lemma starts_at_most_one (t : string) (ks : list string) :
  NoDup ks -> (forall k, In k ks -> String.length k = 2) ->
  (0 <= fold_right Z.add 0 (map (starts t) ks) <= 1)%Z
  /\ (String.length t < 2 -> fold_right Z.add 0%Z (map (starts t) ks) = 0%Z).
Proof.
  induction ks as [|k ks IH]; intros ND L; simpl; [split; [lia | reflexivity]|].
  inversion ND as [|? ? Hk ND']; subst.
  destruct (IH ND' (fun k' H => L k' (or_intror H))) as [IH1 IH2].
  change (starts t k) with (if PyStr.startswith t k then 1%Z else 0%Z).
  destruct (PyStr.startswith t k) eqn:E.
  - assert (fold_right Z.add 0%Z (map (starts t) ks) = 0%Z) as Z0.
    { apply (starts_none t k ks E Hk). intros k' Hk'.
      rewrite (L k' (or_intror Hk')). now rewrite (L k (or_introl eq_refl)). }
    rewrite Z0. split; [lia|]. intros Ht.
    apply PyStrFacts.startswith_length in E.
    rewrite (L k (or_introl eq_refl)) in E. lia.
  - split; [lia|]. intros Ht. rewrite (IH2 Ht). reflexivity.
Qed.

Lemma occurrences_total (ks : list string) :
  NoDup ks -> (forall k, In k ks -> String.length k = 2) ->
  forall s,
    (0 <= fold_right Z.add 0 (map (fun k => ScanSpec.overlapping_count k s) ks)
     <= Z.of_nat (String.length s - 1))%Z.
Proof.
  intros ND L. induction s as [|c s IH].
  - simpl. induction ks as [|k ks IHk]; simpl; [lia|].
    inversion ND; subst. apply IHk; [assumption|]. intros k' H. apply L. now right.
  - assert (fold_right Z.add 0%Z
              (map (fun k => ScanSpec.overlapping_count k (String c s)) ks)
            = (fold_right Z.add 0 (map (starts (String c s)) ks)
               + fold_right Z.add 0
                   (map (fun k => ScanSpec.overlapping_count k s) ks))%Z) as E.
    { clear. induction ks as [|k ks IHk]; [reflexivity|].
      cbn [map fold_right]. rewrite IHk.
      cbn [ScanSpec.overlapping_count]. unfold starts. lia. }
    rewrite E. destruct (starts_at_most_one (String c s) ks ND L) as [H1 H2].
    destruct s as [|c' s'].
    + rewrite H2 by (simpl; lia). simpl in IH |- *. lia.
    + simpl String.length in *. lia.
Qed.

Lemma dyad_form (k : string) :
  String.length k = 2 -> exists a b, k = String a (String b "").
Proof.
  destruct k as [|a [|b [|c k]]]; simpl; try discriminate. intros _. now exists a, b.
Qed.

(** X15: when all patterns are dyads, the counts of one sequence add up to
    at most the number of places at which a dyad can begin: the length of
    the sequence minus 1, and 0 for the empty sequence; the sum is never
    negative. *)
Theorem count_two_mers_total (sequence : string) (two_mers : list string) :
  (forall mer, In mer two_mers -> String.length mer = 2) ->
  (0 <= total (count_two_mers sequence two_mers)
   <= Z.max 0 (Z.of_nat (String.length sequence) - 1))%Z.
Proof.
  intros L. rewrite count_two_mers_tabulate. unfold total. rewrite map_map.
  cbn [snd].
  assert (forall k, In k (first_occurrences two_mers) -> String.length k = 2) as L'
      by (intros k Hk; apply L; now apply first_occurrences_In).
  pose proof (occurrences_total (first_occurrences two_mers)
                (first_occurrences_NoDup two_mers) L' sequence) as [_ Hov].
  assert (0 <= fold_right Z.add 0
                 (map (fun mer => PyStr.count sequence mer) (first_occurrences two_mers))
          <= fold_right Z.add 0
               (map (fun k => ScanSpec.overlapping_count k sequence)
                    (first_occurrences two_mers)))%Z as Hle.
  { clear Hov. induction (first_occurrences two_mers) as [|k ks IH]; simpl; [lia|].
    specialize (IH (fun k' H => L' k' (or_intror H))).
    destruct (dyad_form k (L' k (or_introl eq_refl))) as (a & b & ->).
    rewrite count_nonempty by discriminate.
    destruct (dyad_count_loop_occurrences a b (String.length sequence) sequence
                (le_n _)) as [[Hlo _] _].
    lia. }
  lia.
Qed.

(** The 400 counts of "ACACAC" add up to 5, those of the empty sequence
    to 0. *)
Lemma count_two_mers_total_witness :
  (0 <= total (count_two_mers "ACACAC" (string_two_mers tt))
   <= Z.max 0 (Z.of_nat (String.length "ACACAC") - 1))%Z
  /\ (0 <= total (count_two_mers "" (string_two_mers tt))
      <= Z.max 0 (Z.of_nat (String.length "") - 1))%Z.
Proof.
  split.
  - apply (count_two_mers_total "ACACAC" (string_two_mers tt)).
    apply string_two_mers_length2.
  - apply (count_two_mers_total "" (string_two_mers tt)).
    apply string_two_mers_length2.
Defined.

(** ** What is in a written table *)

(** A file is written only by a run that went all the way, and it holds the
    labels beside the distinct identifiers. *)
Lemma written_table_of (env : Collaborators) (source output path : string)
      (table : Csv) :
  In (path, table) (files_written (snd (start env source output))) ->
  exists fastas t0 model prediction,
    get_fastas env source = (Ok fastas, t0)
    /\ fastas <> []
    /\ joblib_load env (model_source env) = Ok model
    /\ predict model (feature_matrix (string_two_mers tt) fastas) = Ok prediction
    /\ List.length prediction = List.length (first_occurrences (map id fastas))
    /\ path = output
    /\ table = label_table "Protein ID" "prediction"
                 (first_occurrences (map id fastas)) prediction.
Proof.
  intros Hin.
  pose proof (start_run_shape env source output) as S.
  remember (fst (start env source output)) as r eqn:Hr. clear Hr.
  remember (snd (start env source output)) as t eqn:Ht. clear Ht.
  destruct S as [e t0 Hget | t0 Hget | fastas t0 e Hget Hne
                 | fastas t0 model e Hget Hne
                 | fastas t0 model prediction Hget Hne
                 | fastas t0 model prediction e Hget Hne
                 | fastas t0 model prediction Hget Hne Hload Hpred Hlen Hw];
    pose proof (only_prints_files t0 (get_fastas_prints_of env source _ t0 Hget)) as Pf;
    rewrite ?files_written_app, ?Pf, ?trace_to_load_files,
      ?trace_of_prediction_files in Hin;
    try (destruct Hin; fail).
  cbn [files_written flat_map app] in Hin. destruct Hin as [[= <- <-]|[]].
  exists fastas, t0, model, prediction.
  rewrite (feature_matrix_eq_any (string_two_mers tt) fastas) in Hlen.
  cbn [index] in Hlen.
  repeat (split; [first [assumption | reflexivity]|]). reflexivity.
Qed.

(** C6, as stated: there is no run on records with a repeated identifier
    whose output has a repeated identifier, or the identifiers of the
    records one by one, or as many rows as there are records. *)
Lemma duplicate_identifiers_not_kept :
  ~ (exists env source output fastas t0 path table,
        get_fastas env source = (Ok fastas, t0)
        /\ ~ NoDup (map id fastas)
        /\ In (path, table) (files_written (snd (start env source output)))
        /\ (~ NoDup (map (hd "") (lines table))
            \/ map (hd "") (lines table) = map id fastas
            \/ List.length (lines table) = List.length fastas)).
Proof.
  intros (env & source & output & fastas & t0 & path & table
          & Hget & Hdup & Hin & H).
  destruct (written_table_of env source output path table Hin)
    as (fastas' & t0' & model & prediction & Hget' & _ & _ & _ & Hlen & _ & ->).
  rewrite Hget in Hget'. injection Hget' as <- <-.
  destruct (label_table_lines (first_occurrences (map id fastas)) prediction Hlen)
    as (L1 & L2 & _).
  rewrite L1, L2 in H. destruct H as [H|[H|H]].
  - apply H, first_occurrences_NoDup.
  - apply Hdup. rewrite <- H. apply first_occurrences_NoDup.
  - apply Hdup. apply first_occurrences_length.
    now rewrite length_map.
Qed.

(** C6, amended: records with a repeated identifier are not rejected, and
    they are not kept apart either.  [construct_dataframe] keys its
    dictionary by the identifier, so that its frame has one row per distinct
    identifier, at the place where the identifier is first met, holding the
    counts of the last record with that identifier.  A run on such records
    that gets one label per row and can write ends without an exception and
    writes its table; and every table that a run writes has one line per
    distinct identifier, in the order in which the identifiers are first
    met, and no identifier twice. *)
Theorem duplicate_identifiers_last_wins :
  (forall fastas, exists df t,
      construct_dataframe (string_two_mers tt) fastas = (Ok df, t)
      /\ index df = first_occurrences (map id fastas)
      /\ NoDup (index df)
      /\ rows df
         = map (fun i => (i, feature_vector (string_two_mers tt)
                                            (seq_of_last fastas i)))
               (first_occurrences (map id fastas)))
  /\ (forall env source output fastas t0 model prediction,
         get_fastas env source = (Ok fastas, t0) ->
         fastas <> [] ->
         joblib_load env (model_source env) = Ok model ->
         predict model (feature_matrix (string_two_mers tt) fastas) = Ok prediction ->
         List.length prediction = List.length (first_occurrences (map id fastas)) ->
         write_error env output = None ->
         exists table,
           fst (start env source output) = Ok tt
           /\ files_written (snd (start env source output)) = [(output, table)]
           /\ map (hd "") (lines table) = first_occurrences (map id fastas)
           /\ map (fun l => nth 1 l "") (lines table) = map str_of_Z prediction)
  /\ (forall env source output path table,
         In (path, table) (files_written (snd (start env source output))) ->
         exists fastas t0,
           get_fastas env source = (Ok fastas, t0)
           /\ map (hd "") (lines table) = first_occurrences (map id fastas)
           /\ NoDup (map (hd "") (lines table))
           /\ List.length (lines table) <= List.length fastas).
Proof.
  split; [|split].
  - intros fastas.
    exists (feature_matrix (string_two_mers tt) fastas). eexists.
    split; [apply construct_dataframe_eq|].
    assert (index (feature_matrix (string_two_mers tt) fastas)
            = first_occurrences (map id fastas)) as E
        by (rewrite (feature_matrix_eq_any _ _); reflexivity).
    split; [exact E|].
    split; [rewrite E; apply first_occurrences_NoDup|].
    rewrite (rows_feature_matrix_any _ _).
    now rewrite string_two_mers_first_occurrences.
  - intros env source output fastas t0 model prediction
           Hget Hne Hload Hpred Hlen Hw.
    assert (List.length prediction
            = List.length (index (feature_matrix (string_two_mers tt) fastas)))
      as Hlen'
        by (rewrite (feature_matrix_eq_any _ _); exact Hlen).
    rewrite (start_written env source output fastas t0 model prediction
               Hget Hne Hload Hpred Hlen' Hw).
    cbn [fst snd].
    rewrite !files_written_app,
      (only_prints_files t0 (get_fastas_prints_of env source _ t0 Hget)),
      trace_to_load_files, trace_of_prediction_files.
    cbn [files_written flat_map app].
    destruct (label_table_lines (first_occurrences (map id fastas)) prediction Hlen)
      as (_ & L2 & L3).
    eexists. split; [reflexivity|]. split; [reflexivity|]. now split.
  - intros env source output path table Hin.
    destruct (written_table_of env source output path table Hin)
      as (fastas & t0 & model & prediction & Hget & _ & _ & _ & Hlen & _ & ->).
    destruct (label_table_lines (first_occurrences (map id fastas)) prediction Hlen)
      as (L1 & L2 & _).
    exists fastas, t0. rewrite L1, L2.
    split; [exact Hget|]. split; [reflexivity|].
    split; [apply first_occurrences_NoDup|].
    rewrite <- (length_map id fastas). apply first_occurrences_length.
Qed.

(** The file with three records, two of them "P1": the run writes the two
    lines "P1" and "P2". *)
Lemma duplicate_identifiers_last_wins_witness :
  exists table,
    fst (start MoreExamples.repeated_identifier "in.fa" "out.csv") = Ok tt
    /\ files_written (snd (start MoreExamples.repeated_identifier "in.fa" "out.csv"))
       = [("out.csv", table)]
    /\ map (hd "") (lines table) = ["P1"; "P2"]
    /\ map (fun l => nth 1 l "") (lines table) = ["1"; "1"].
Proof.
  exact (proj1 (proj2 duplicate_identifiers_last_wins)
           MoreExamples.repeated_identifier "in.fa" "out.csv"
           [Examples.P1; Examples.P2; MoreExamples.P1_third]
           [Print "Number of sequences in 'in.fa': 3"]
           Examples.all_ones [1; 1]%Z
           eq_refl ltac:(discriminate) eq_refl
           ltac:(vm_compute; reflexivity) eq_refl eq_refl).
Defined.

(** C7, as stated: the table does not have one row per record in the order
    of the records; of the three records "P1", "P2", "P1" the run writes two
    lines. *)
Lemma output_rows_not_per_record :
  ~ (forall env source output fastas t0 path table,
        get_fastas env source = (Ok fastas, t0) ->
        In (path, table) (files_written (snd (start env source output))) ->
        List.length (lines table) = List.length fastas
        /\ map (hd "") (lines table) = map id fastas).
Proof.
  intros H.
  destruct (H MoreExamples.repeated_identifier "in.fa" "out.csv"
              [Examples.P1; Examples.P2; MoreExamples.P1_third]
              [Print "Number of sequences in 'in.fa': 3"]
              "out.csv"
              (label_table "Protein ID" "prediction" ["P1"; "P2"] [1; 1]%Z))
    as [Hlen _].
  - reflexivity.
  - vm_compute. left. reflexivity.
  - discriminate.
Qed.

(** ** The order of what a run does *)

Lemma stages_app (s : stage) (t t' : list event) :
  stages s (t ++ t')
  = match stages s t with
    | Some s' => stages s' t'
    | None => None
    end.
Proof.
  revert s. induction t as [|e t IH]; intros s; simpl; [reflexivity|].
  destruct (advance s e); [apply IH | reflexivity].
Qed.

Lemma stages_only_prints (s : stage) (t : list event) :
  only_prints t -> stages s t = Some s.
Proof.
  unfold only_prints. induction t as [|e t IH]; [reflexivity|].
  simpl. destruct e; simpl; try discriminate. exact IH.
Qed.

(** Behind [Saved] a run can only print. *)
Lemma stages_from_Saved (t : list event) (s : stage) :
  stages Saved t = Some s -> s = Saved.
Proof.
  induction t as [|e t IH]; simpl; [now intros [= <-]|].
  destruct e; simpl; try discriminate. exact IH.
Qed.

(** What lies behind the stage that a trace reaches. *)
Lemma stages_done (t : list event) :
  forall s s', stages s t = Some s' ->
    (count_events is_load t + fst (fst (done_at s)),
     count_events is_predict t + snd (fst (done_at s)),
     count_events is_write t + snd (done_at s)) = done_at s'.
Proof.
  induction t as [|e t IH]; intros s s'; simpl.
  - intros [= <-]. now destruct s.
  - destruct (advance s e) as [s1|] eqn:A; [|discriminate].
    intros H. specialize (IH s1 s' H). rewrite <- IH.
    unfold count_events in *. 
    destruct e, s; simpl in A; try discriminate; injection A as <-;
      simpl; f_equal; try f_equal; lia.
Qed.

Lemma start_stages (env : Collaborators) (source output : string) :
  exists s,
    stages Started (snd (start env source output)) = Some s
    /\ (s = Saved -> fst (start env source output) = Ok tt).
Proof.
  pose proof (start_run_shape env source output) as S.
  remember (fst (start env source output)) as r eqn:Hr. clear Hr.
  remember (snd (start env source output)) as t eqn:Ht. clear Ht.
  destruct S as [e t0 Hget | t0 Hget | fastas t0 e Hget | fastas t0 model e Hget
                 | fastas t0 model prediction Hget
                 | fastas t0 model prediction e Hget
                 | fastas t0 model prediction Hget];
    pose proof (get_fastas_prints_of env source _ t0 Hget) as P;
    rewrite ?stages_app, (stages_only_prints Started t0 P);
    eexists; (split; [reflexivity | try discriminate; reflexivity]).
Qed.

(** X11: in every run of [start], nothing has been loaded, called or written
    before the model is loaded; when the model is called it has been loaded
    exactly once and neither called nor written before; when a file is
    written the model has been loaded once and called once and no file was
    written before, and the run then ends without an exception.  So each of
    the three happens at most once, in this order, and a run that ends with
    an exception has written no file. *)
Theorem start_effects_in_order (env : Collaborators) (source output : string) :
  (forall t1 e t2,
      snd (start env source output) = t1 ++ e :: t2 ->
      (is_load e = true ->
       count_events is_load t1 = 0 /\ count_events is_predict t1 = 0
       /\ count_events is_write t1 = 0)
      /\ (is_predict e = true ->
          count_events is_load t1 = 1 /\ count_events is_predict t1 = 0
          /\ count_events is_write t1 = 0)
      /\ (is_write e = true ->
          count_events is_load t1 = 1 /\ count_events is_predict t1 = 1
          /\ count_events is_write t1 = 0
          /\ fst (start env source output) = Ok tt))
  /\ (forall ex, fst (start env source output) = Raise ex ->
                 count_events is_write (snd (start env source output)) = 0
                 /\ files_written (snd (start env source output)) = []).
Proof.
  destruct (start_stages env source output) as (s & Hs & Hok).
  split.
  - intros t1 e t2 Hsplit. rewrite Hsplit, stages_app in Hs.
    destruct (stages Started t1) as [s1|] eqn:H1; [|discriminate].
    pose proof (stages_done t1 Started s1 H1) as D. cbn [done_at fst snd] in D.
    rewrite !Nat.add_0_r in D.
    cbn [stages] in Hs. destruct (advance s1 e) as [s2|] eqn:A; [|discriminate].
    split; [|split]; intros He; destruct e; try discriminate;
      destruct s1; simpl in A; try discriminate;
      injection D as D1 D2 D3; repeat split; try assumption.
    injection A as <-. apply Hok. symmetry. exact (eq_sym (stages_from_Saved t2 s Hs)).
  - intros ex Hex.
    pose proof (stages_done _ Started s Hs) as D. cbn [done_at fst snd] in D.
    rewrite !Nat.add_0_r in D.
    assert (s <> Saved) as Hn by (intros ->; rewrite (Hok eq_refl) in Hex; discriminate).
    assert (count_events is_write (snd (start env source output)) = 0) as W
        by (destruct s; try congruence; now injection D).
    split; [exact W|].
    revert W. unfold count_events.
    generalize (snd (start env source output)) as t.
    induction t as [|e t IH]; [reflexivity|].
    destruct e; simpl; try discriminate; exact IH.
Qed.

(** The run on the file with the two records: the table is written as the
    fifteenth event, after one load and one call. *)
Lemma start_effects_in_order_witness :
  count_events is_load
    (firstn 14 (snd (start Examples.two_records "in.fa" "out.csv"))) = 1
  /\ count_events is_predict
       (firstn 14 (snd (start Examples.two_records "in.fa" "out.csv"))) = 1
  /\ count_events is_write
       (firstn 14 (snd (start Examples.two_records "in.fa" "out.csv"))) = 0
  /\ fst (start Examples.two_records "in.fa" "out.csv") = Ok tt.
Proof.
  refine (proj2 (proj2 (proj1 (start_effects_in_order Examples.two_records
                                 "in.fa" "out.csv")
                          (firstn 14 (snd (start Examples.two_records "in.fa" "out.csv")))
                          (ToCsv "out.csv"
                             (label_table "Protein ID" "prediction"
                                ["P1"; "P2"] [1; 1]%Z))
                          (skipn 15 (snd (start Examples.two_records "in.fa" "out.csv")))
                          _)) eq_refl).
  vm_compute. reflexivity.
Defined.
